(** * AgentLego tool server: schema synthesis, endpoint binding and
    media marshalling ([agentlego/server/server.py]).

    The development embeds [create_input_params], [create_output_model] and
    [add_tool] (with its two closures [_call] and [call]) as Rocq functions.
    Python dictionaries are stdpp [gmap]s, exceptions are values of an error
    monad, and the third-party code the server only calls (PIL, torchaudio,
    the constructors of the declared primitive types and the builtin
    [repr]) is the fields of a record the server is parameterised by. *)

From Stdlib Require Import ZArith Ascii String List Lia.
From Stdlib Require QArith_base.
From stdpp Require Import base option list strings gmap fin_maps pretty sorting.

Local Open Scope string_scope.
Local Open Scope list_scope.
Local Open Scope Z_scope.

(** ** Python strings

    The two [str] methods the server relies on. *)
Module PyStr.

  (** The split of [s] at the last occurrence of the character [sep]:
      [Some (head, tail)] when [sep] occurs in [s]. *)
Fixpoint rsplit_last (sep : ascii) (s : string) : option (string * string) :=
  match s with
  | EmptyString => None
  | String c s' =>
      match rsplit_last sep s' with
      | Some (h, t) => Some (String c h, t)
      | None => if Ascii.eqb c sep then Some (EmptyString, s') else None
      end
  end.

  (** [s.rpartition(sep)] for a one-character separator: the part before
      the last separator, the separator and the part after it; when the
      separator does not occur, two empty strings followed by [s] itself. *)
Definition rpartition (sep : ascii) (s : string) : string * string * string :=
  match rsplit_last sep s with
  | Some (h, t) => (h, String sep EmptyString, t)
  | None => (EmptyString, EmptyString, s)
  end.

  (** Whether [p] is a prefix of [s] ([s.startswith(p)]). *)
Fixpoint startswith (p s : string) : bool :=
  match p, s with
  | EmptyString, _ => true
  | String a p', String b s' => Ascii.eqb a b && startswith p' s'
  | String _ _, EmptyString => false
  end.

  (** The scan of [s.replace(old, new)] for a non-empty [old]: occurrences
      are found left to right and do not overlap; [skip] counts the
      characters of the occurrence just replaced that are still to be
      passed over. *)
Fixpoint replace_from (old new : string) (skip : nat) (s : string) : string :=
  match s with
  | EmptyString => EmptyString
  | String c s' =>
      match skip with
      | S k => replace_from old new k s'
      | O =>
          if startswith old s
          then new +:+ replace_from old new (Nat.pred (String.length old)) s'
          else String c (replace_from old new O s')
      end
  end.

Definition replace (old new s : string) : string := replace_from old new O s.

  (** Truthiness of a string: the empty string is falsy. *)
Definition truthy (s : string) : bool :=
  match s with EmptyString => false | String _ _ => true end.

  (** The characters of a string. *)
Fixpoint chars (s : string) : list ascii :=
  match s with
  | EmptyString => []
  | String c s' => c :: chars s'
  end.

End PyStr.

(** ** [base64.b64encode] followed by [decode()] *)
Module Base64.

Definition alphabet : string :=
  "ABCDEFGHIJKLMNOPQRSTUVWXYZabcdefghijklmnopqrstuvwxyz0123456789+/".

  (** The character of a six-bit group. *)
Definition sextet (n : N) : ascii :=
  match String.get (N.to_nat n) alphabet with
  | Some c => c
  | None => "="%char
  end.

  (** Three bytes give four characters; a last group of one or two bytes is
      padded with [=]. *)
Fixpoint b64encode (data : list Byte.byte) : string :=
  match data with
  | [] => EmptyString
  | [a] =>
      let x := Byte.to_N a in
      String (sextet (N.shiftr x 2))
        (String (sextet (N.shiftl (N.land x 3) 4)) "==")
  | [a; b] =>
      let x := Byte.to_N a in
      let y := Byte.to_N b in
      String (sextet (N.shiftr x 2))
        (String (sextet (N.lor (N.shiftl (N.land x 3) 4) (N.shiftr y 4)))
           (String (sextet (N.shiftl (N.land y 15) 2)) "="))
  | a :: b :: c :: rest =>
      let x := Byte.to_N a in
      let y := Byte.to_N b in
      let z := Byte.to_N c in
      String (sextet (N.shiftr x 2))
        (String (sextet (N.lor (N.shiftl (N.land x 3) 4) (N.shiftr y 4)))
           (String (sextet (N.lor (N.shiftl (N.land y 15) 2) (N.shiftr z 6)))
              (String (sextet (N.land z 63)) (b64encode rest))))
  end.

End Base64.

(** ** Python values, exceptions and the error monad *)

  (** An exception raised while a request is handled.  [KeyError] and
      [AttributeError] are raised by the server's own dictionary and
      attribute accesses; [HTTPException] is FastAPI's; [OtherException]
      is any other instance of [Exception] raised by a library or by the
      tool; [BaseExceptionOnly] is an exception that derives from
      [BaseException] but not from [Exception] ([KeyboardInterrupt],
      [SystemExit], [GeneratorExit]). *)
Inductive exn : Type :=
  | KeyError (key : string)
  | AttributeError (type_name attr : string)
  | HTTPException (status_code : Z) (detail : string)
  | OtherException (descr : string)
  | BaseExceptionOnly (descr : string).

  (** [isinstance(e, Exception)], the test of [except Exception]. *)
Definition isinstance_Exception (e : exn) : bool :=
  match e with
  | BaseExceptionOnly _ => false
  | _ => true
  end.

Inductive result (A : Type) : Type :=
  | Ok (a : A)
  | Raise (e : exn).
Arguments Ok {A} a.
Arguments Raise {A} e.

Definition bind {A B : Type} (m : result A) (k : A -> result B) : result B :=
  match m with
  | Ok a => k a
  | Raise e => Raise e
  end.

Notation "'let!' x ':=' m 'in' k" := (bind m (fun x => k))
  (at level 10, x name, m at level 100, k at level 200, only parsing).

  (** The classes a [Parameter] can declare as its [type], and the
      annotations the synthesizer builds from them. *)
Inductive pytype : Type :=
  | T_ImageIO
  | T_AudioIO
  | T_UploadFile
  | T_str
  | T_int
  | T_float
  | T_bool.

#[local] Set Warnings "-register-all".

Section Values.
Context {ImageIO AudioIO : Type}.

  (** The Python values that flow through a handler.  [ImageIO] and
      [AudioIO] are the in-memory media of [agentlego.types]; an
      [VUploadFile] is FastAPI's upload with its (optional) file name and
      the content of its [file]. *)
Inductive pyval : Type :=
  | VNone
  | VBool (b : bool)
  | VInt (n : Z)
  | VStr (s : string)
  | VTuple (items : list pyval)
  | VUploadFile (filename : option string) (file : list Byte.byte)
  | VImage (image : ImageIO)
  | VAudio (audio : AudioIO)
  | VObject (class_name : string) (descr : string).

  (** [type(v).__name__], as it appears in an [AttributeError]. *)
Definition type_name (v : pyval) : string :=
  match v with
  | VNone => "NoneType"
  | VBool _ => "bool"
  | VInt _ => "int"
  | VStr _ => "str"
  | VTuple _ => "tuple"
  | VUploadFile _ _ => "UploadFile"
  | VImage _ => "ImageIO"
  | VAudio _ => "AudioIO"
  | VObject c _ => c
  end.

  (** One declared input or output of a tool ([agentlego.schema.Parameter]). *)
Record ParameterSpec : Type := {
  p_name : string;
  p_type : pytype;
  p_optional : bool;
  p_default : pyval;
  p_description : option string
}.

  (** A tool as the server sees it: its name, the description of its
      [toolmeta], its declared inputs and outputs, and the tool called with
      keyword arguments. *)
Record BaseTool : Type := {
  t_name : string;
  t_description : string;
  t_inputs : list ParameterSpec;
  t_outputs : list ParameterSpec;
  t_call : gmap string pyval -> result pyval
}.

  (** The libraries a handler calls.  [Image_open file] is
      [ImageIO(Image.open(file))]; [torchaudio_load file format] is
      [torchaudio.load(file, format=format)] wrapped in
      [AudioIO(raw, sampling_rate=sr)]; [save_png] is
      [to_pil().save(file, format='png')] followed by [file.getvalue()];
      [save_wav] is [torchaudio.save(file, to_tensor(), sampling_rate,
      format='wav')] followed by [file.getvalue()]; [construct t data] is
      the call [t(data)] of a declared primitive type; [repr] is the
      builtin.  Each of them but [repr] may raise. *)
Record Libs : Type := {
  Image_open : list Byte.byte -> result ImageIO;
  torchaudio_load : list Byte.byte -> option string -> result AudioIO;
  save_png : ImageIO -> result (list Byte.byte);
  save_wav : AudioIO -> result (list Byte.byte);
  construct : pytype -> pyval -> result pyval;
  repr : exn -> string
}.

End Values.
Arguments pyval : clear implicits.
Arguments ParameterSpec : clear implicits.
Arguments BaseTool : clear implicits.
Arguments Libs : clear implicits.

(** ** Schema synthesis: [create_input_params] and [create_output_model] *)

  (** The field descriptors of FastAPI and pydantic, with the keyword
      arguments they were built with ([field_kwargs]). *)
Inductive field_info : Type :=
  | File (field_kwargs : gmap string string)
  | Form (field_kwargs : gmap string string)
  | Field (field_kwargs : gmap string string).

  (** [Annotated[ann_type, ann_info]]. *)
Record Annotated : Type := {
  ann_type : pytype;
  ann_info : field_info
}.

Inductive parameter_kind : Type :=
  | POSITIONAL_OR_KEYWORD.

  (** What [create_output_model] returns: [None], one annotation, or
      [Tuple[...]] of several. *)
Inductive output_model : Type :=
  | NoModel
  | OneModel (a : Annotated)
  | TupleModel (items : list Annotated).

Section Schema.
Context {ImageIO AudioIO : Type}.
Local Abbreviation pyval := (pyval ImageIO AudioIO).
Local Abbreviation ParameterSpec := (ParameterSpec ImageIO AudioIO).
Local Abbreviation BaseTool := (BaseTool ImageIO AudioIO).

  (** The default of an [inspect.Parameter]: [inspect._empty] or a value. *)
Inductive parameter_default : Type :=
  | inspect_empty
  | Default (v : pyval).

Record inspect_Parameter : Type := {
  param_name : string;
  param_kind : parameter_kind;
  param_default : parameter_default;
  param_annotation : Annotated
}.

Record inspect_Signature : Type := {
  sig_parameters : list inspect_Parameter;
  sig_return_annotation : output_model
}.

  (** [if p.description: field_kwargs['description'] = p.description]:
      [None] and the empty string are falsy. *)
Definition description_kwargs (p : ParameterSpec) : gmap string string :=
  match p_description p with
  | Some d => if PyStr.truthy d then {[ "description" := d ]} else ∅
  | None => ∅
  end.

  (** The body of the loop of [create_input_params]. *)
Definition input_param (p : ParameterSpec) : inspect_Parameter :=
  let field_kwargs := description_kwargs p in
  let annotation :=
    match p_type p with
    | T_ImageIO =>
        {| ann_type := T_UploadFile;
           ann_info := File (<[ "format" := "image;binary" ]> field_kwargs) |}
    | T_AudioIO =>
        {| ann_type := T_UploadFile;
           ann_info := File (<[ "format" := "audio;binary" ]> field_kwargs) |}
    | t => {| ann_type := t; ann_info := Form field_kwargs |}
    end in
  {| param_name := p_name p;
     param_kind := POSITIONAL_OR_KEYWORD;
     param_default := if p_optional p then Default (p_default p) else inspect_empty;
     param_annotation := annotation |}.

Definition create_input_params (tool : BaseTool) : list inspect_Parameter :=
  map input_param (t_inputs tool).

  (** The body of the loop of [create_output_model]. *)
Definition output_annotation (p : ParameterSpec) : Annotated :=
  match p_type p with
  | T_ImageIO =>
      {| ann_type := T_str;
         ann_info := Field {[ "format" := "image/png;base64" ]} |}
  | T_AudioIO =>
      {| ann_type := T_str;
         ann_info := Field {[ "format" := "audio/wav;base64" ]} |}
  | t => {| ann_type := t; ann_info := Field ∅ |}
  end.

Definition create_output_model (tool : BaseTool) : output_model :=
  let output_schema := map output_annotation (t_outputs tool) in
  match output_schema with
  | [] => NoModel
  | [a] => OneModel a
  | _ => TupleModel output_schema
  end.

End Schema.
Arguments parameter_default : clear implicits.
Arguments inspect_Parameter : clear implicits.
Arguments inspect_Signature : clear implicits.

(** ** The invocation adapter and the endpoint binder: [add_tool] *)

  (** A route of the router, as [add_api_route] records it.  The endpoint
      is the function [create_function(signature, call)]: the closure
      [call] under the synthesized signature. *)
Record Route {ImageIO AudioIO : Type} : Type := {
  path : string;
  endpoint_signature : inspect_Signature ImageIO AudioIO;
  endpoint : gmap string (pyval ImageIO AudioIO) -> result (pyval ImageIO AudioIO);
  methods : list string;
  operation_id : string;
  summary : string
}.
Arguments Route : clear implicits.

Section Server.
Context {ImageIO AudioIO : Type}.
Context (L : Libs ImageIO AudioIO).
Local Abbreviation pyval := (pyval ImageIO AudioIO).
Local Abbreviation ParameterSpec := (ParameterSpec ImageIO AudioIO).
Local Abbreviation BaseTool := (BaseTool ImageIO AudioIO).
Local Abbreviation Route := (Route ImageIO AudioIO).

  (** [kwargs[name]]. *)
Definition getitem (kwargs : gmap string pyval) (name : string) : result pyval :=
  match kwargs !! name with
  | Some v => Ok v
  | None => Raise (KeyError name)
  end.

  (** [data.file]: only an upload has the attribute. *)
Definition attr_file (data : pyval) : result (list Byte.byte) :=
  match data with
  | VUploadFile _ file => Ok file
  | _ => Raise (AttributeError (type_name data) "file")
  end.

  (** [data.filename.rpartition]: the file name of an upload, which must
      itself be a string for [rpartition] to exist. *)
Definition attr_filename_rpartition (data : pyval) : result (ascii -> string * string * string) :=
  match data with
  | VUploadFile (Some filename) _ => Ok (fun sep => PyStr.rpartition sep filename)
  | VUploadFile None _ => Raise (AttributeError "NoneType" "rpartition")
  | _ => Raise (AttributeError (type_name data) "filename")
  end.

  (** [x or None] for a string [x]. *)
Definition or_None (x : string) : option string :=
  if PyStr.truthy x then Some x else None.

  (** The first loop of [_call]: the keyword arguments of the request are
      decoded, input by input, into the arguments [args] of the tool. *)
Fixpoint decode_inputs (inputs : list ParameterSpec) (kwargs args : gmap string pyval)
  : result (gmap string pyval) :=
  match inputs with
  | [] => Ok args
  | p :: rest =>
      let! data := getitem kwargs (p_name p) in
      match p_type p with
      | T_ImageIO =>
          let! file := attr_file data in
          let! image := Image_open L file in
          decode_inputs rest kwargs (<[ p_name p := VImage image ]> args)
      | T_AudioIO =>
          let! rpartition := attr_filename_rpartition data in
          let file_format := or_None (rpartition "."%char).2 in
          let! file := attr_file data in
          let! audio := torchaudio_load L file file_format in
          decode_inputs rest kwargs (<[ p_name p := VAudio audio ]> args)
      | t =>
          match data with
          | VNone => decode_inputs rest kwargs args
          | _ =>
              let! data' := construct L t data in
              decode_inputs rest kwargs (<[ p_name p := data' ]> args)
          end
      end
  end.

  (** [if not isinstance(outs, tuple): outs = [outs]]. *)
Definition as_sequence (outs : pyval) : list pyval :=
  match outs with
  | VTuple items => items
  | _ => [outs]
  end.

  (** The body of the second loop of [_call]: one returned value is
      encoded under one declared output. *)
Definition encode_output (p : ParameterSpec) (out : pyval) : result pyval :=
  match p_type p with
  | T_ImageIO =>
      match out with
      | VImage image =>
          let! png := save_png L image in
          Ok (VStr (Base64.b64encode png))
      | _ => Raise (AttributeError (type_name out) "to_pil")
      end
  | T_AudioIO =>
      match out with
      | VAudio audio =>
          let! wav := save_wav L audio in
          Ok (VStr (Base64.b64encode wav))
      | _ => Raise (AttributeError (type_name out) "to_tensor")
      end
  | _ => Ok out
  end.

  (** The second loop of [_call], over [zip(outs, tool.outputs)], appending
      to [res]. *)
Fixpoint encode_outputs (pairs : list (pyval * ParameterSpec)) (res : list pyval)
  : result (list pyval) :=
  match pairs with
  | [] => Ok res
  | (out, p) :: rest =>
      let! out' := encode_output p out in
      encode_outputs rest (res ++ [out'])
  end.

  (** The last statement of [_call]: the arity of the response. *)
Definition pack (res : list pyval) : pyval :=
  match res with
  | [] => VNone
  | [r] => r
  | _ => VTuple res
  end.

Definition _call (tool : BaseTool) (kwargs : gmap string pyval) : result pyval :=
  let! args := decode_inputs (t_inputs tool) kwargs ∅ in
  let! outs := t_call tool args in
  let outs := as_sequence outs in
  let! res := encode_outputs (zip outs (t_outputs tool)) [] in
  Ok (pack res).

  (** The handler bound to the route: it returns what [_call] returns, and
      under [except Exception as e] raises
      [HTTPException(status_code=400, detail=repr(e))]. *)
Definition call (tool : BaseTool) (kwargs : gmap string pyval) : result pyval :=
  match _call tool kwargs with
  | Ok v => Ok v
  | Raise e =>
      if isinstance_Exception e
      then Raise (HTTPException 400 (repr L e))
      else Raise e
  end.

  (** [router.add_api_route]: the router gains the route. *)
Definition add_api_route (router : list Route) (r : Route) : list Route :=
  router ++ [r].

Definition add_tool (tool : BaseTool) (router : list Route) : list Route :=
  let tool_name := PyStr.replace " " "_" (t_name tool) in
  let input_params := create_input_params tool in
  let output_model := create_output_model tool in
  let signature :=
    {| sig_parameters := input_params; sig_return_annotation := output_model |} in
  add_api_route router
    {| path := "/" +:+ tool_name;
       endpoint_signature := signature;
       endpoint := call tool;
       methods := ["POST"];
       operation_id := tool_name;
       summary := t_description tool |}.

  (** The attribute first read on the incoming value of a media field. *)
Definition media_attr (p : ParameterSpec) : string :=
  match p_type p with
  | T_ImageIO => "file"
  | _ => "filename"
  end.

  (** The number of (returned value, declared output) pairs of an
      invocation. *)
Definition paired (tool : BaseTool) (outs : pyval) : nat :=
  Nat.min (length (as_sequence outs)) (length (t_outputs tool)).

  (** An exception [e] is raised while the request [kwargs] is handled:
      during argument decoding, during the invocation of the tool, or
      during output encoding, the three stages of [_call]. *)
Inductive raised_in (tool : BaseTool) (kwargs : gmap string pyval) (e : exn) : Prop :=
  | raised_decoding :
      decode_inputs (t_inputs tool) kwargs ∅ = Raise e ->
      raised_in tool kwargs e
  | raised_invoking (args : gmap string pyval) :
      decode_inputs (t_inputs tool) kwargs ∅ = Ok args ->
      t_call tool args = Raise e ->
      raised_in tool kwargs e
  | raised_encoding (args : gmap string pyval) (outs : pyval) :
      decode_inputs (t_inputs tool) kwargs ∅ = Ok args ->
      t_call tool args = Ok outs ->
      encode_outputs (zip (as_sequence outs) (t_outputs tool)) [] = Raise e ->
      raised_in tool kwargs e.

End Server.

(** ** A concrete environment

    Small libraries and tools on which the model runs: an image is kept as
    the content of its file, an audio clip as the format it was loaded with
    and the content of its file. *)
Module Demo.

Definition Image : Type := list Byte.byte.
Definition Audio : Type := option string * list Byte.byte.

Definition quote : string := String (ascii_of_nat 34) EmptyString.

Definition libs : Libs Image Audio :=
  {| Image_open := fun file => Ok file;
     torchaudio_load := fun file format => Ok (format, file);
     save_png := fun image => Ok image;
     save_wav := fun audio => Ok audio.2;
     construct := fun t data =>
       match t, data with
       | T_str, VStr x => Ok (VStr x)
       | T_int, VInt n => Ok (VInt n)
       | T_bool, VBool b => Ok (VBool b)
       | T_bool, VStr x => Ok (VBool (PyStr.truthy x))
       | _, _ => Raise (OtherException "TypeError()")
       end;
     repr := fun e =>
       match e with
       | KeyError k => "KeyError('" +:+ k +:+ "')"
       | AttributeError t a =>
           "AttributeError(" +:+ quote +:+ "'" +:+ t
           +:+ "' object has no attribute '" +:+ a +:+ "'" +:+ quote +:+ ")"
       | HTTPException _ d => "HTTPException(" +:+ d +:+ ")"
       | OtherException d => d
       | BaseExceptionOnly d => d
       end |}.

Definition spec (name : string) (t : pytype) : ParameterSpec Image Audio :=
  {| p_name := name; p_type := t; p_optional := false;
     p_default := VNone; p_description := None |}.

Definition optional_spec (name : string) (t : pytype) (default : pyval Image Audio)
  : ParameterSpec Image Audio :=
  {| p_name := name; p_type := t; p_optional := true;
     p_default := default; p_description := None |}.

  (** The OCR tool of [agentlego/tools/ocr/ocr.py], deployed under the
      name [Text OCR]: one image in, one string out. *)
Definition text_ocr : BaseTool Image Audio :=
  {| t_name := "Text OCR";
     t_description := "This tool can recognize all text on the input image.";
     t_inputs := [spec "image" T_ImageIO];
     t_outputs :=
       [{| p_name := "out"; p_type := T_str; p_optional := false;
           p_default := VNone;
           p_description :=
             Some "OCR results, include bbox in x1, y1, x2, y2 format and the recognized text." |}];
     t_call := fun _ => Ok (VStr "(0, 0, 8, 8) hi") |}.

  (** A tool with an optional integer input; it applies its default
      itself. *)
Definition top_k : BaseTool Image Audio :=
  {| t_name := "Top K";
     t_description := "Keeps the k best answers.";
     t_inputs := [spec "query" T_str; optional_spec "k" T_int (VInt 5)];
     t_outputs := [spec "answers" T_str];
     t_call := fun args =>
       match args !! "k" with
       | Some _ => Ok (VStr "k given")
       | None => Ok (VStr "k omitted")
       end |}.

  (** A tool with an optional audio input, which it transcribes. *)
Definition transcribe : BaseTool Image Audio :=
  {| t_name := "Speech To Text";
     t_description := "Transcribes a clip.";
     t_inputs := [optional_spec "clip" T_AudioIO VNone];
     t_outputs := [spec "text" T_str];
     t_call := fun _ => Ok (VStr "hello") |}.

  (** A tool that declares two outputs and returns [outs]. *)
Definition two_outputs (outs : pyval Image Audio) : BaseTool Image Audio :=
  {| t_name := "Caption And Score";
     t_description := "Captions an image and scores the caption.";
     t_inputs := [];
     t_outputs := [spec "caption" T_str; spec "score" T_int];
     t_call := fun _ => Ok outs |}.

  (** A tool interrupted while it runs. *)
Definition interrupted : BaseTool Image Audio :=
  {| t_name := "Slow Tool";
     t_description := "Runs until interrupted.";
     t_inputs := [];
     t_outputs := [spec "text" T_str];
     t_call := fun _ => Raise (BaseExceptionOnly "KeyboardInterrupt()") |}.

End Demo.

(** ** Starting the server and listing the tools: [start], [list_available_tools] *)

  (** The tool registry of [agentlego.apis.tool], which the commands only
      call.  [register_all_tools path] is
      [register_all_tools(resolve_module(path))] and changes the registry;
      [load_tool name device] is [load_tool(name, device=device)];
      [set_parser] is [tool.set_parser(NaiveParser)]; [tool_setup] is
      [tool.setup()] followed by [tool._is_setup = True]; [list_tools] is
      the set [list_tools()]; [extract_all_tools path] is
      [extract_all_tools(resolve_module(path))], a dictionary from names to
      tools.  A path is kept as its [str]. *)
Record Registry {ImageIO AudioIO : Type} : Type := {
  registry : Type;
  register_all_tools : string -> registry -> result registry;
  load_tool : registry -> string -> string -> result (BaseTool ImageIO AudioIO);
  set_parser : BaseTool ImageIO AudioIO -> result (BaseTool ImageIO AudioIO);
  tool_setup : BaseTool ImageIO AudioIO -> result (BaseTool ImageIO AudioIO);
  list_tools : gset string;
  extract_all_tools : string -> result (gmap string (BaseTool ImageIO AudioIO))
}.
Arguments Registry : clear implicits.

  (** A comprehension or a loop whose body may raise: the first exception
      ends it. *)
Fixpoint mapM {A B : Type} (f : A -> result B) (l : list A) : result (list B) :=
  match l with
  | [] => Ok []
  | x :: rest =>
      let! y := f x in
      let! ys := mapM f rest in
      Ok (y :: ys)
  end.

  (** [sorted] on strings: ascending by code points. *)
Definition sorted (names : list string) : list string :=
  merge_sort String.le names.

Section Commands.
Context {ImageIO AudioIO : Type}.
Context (L : Libs ImageIO AudioIO).
Context (R : Registry ImageIO AudioIO).
Local Abbreviation BaseTool := (BaseTool ImageIO AudioIO).
Local Abbreviation Route := (Route ImageIO AudioIO).

  (** The first loop of [start], under [if extra is not None]. *)
Fixpoint register_extra (paths : list string) (reg : registry R) : result (registry R) :=
  match paths with
  | [] => Ok reg
  | path :: rest =>
      let! reg' := register_all_tools R path reg in
      register_extra rest reg'
  end.

  (** The body of the second loop of [start], up to [add_tool]. *)
Definition prepare_tool (reg : registry R) (device : string) (setup : bool)
    (name : string) : result BaseTool :=
  let! tool := load_tool R reg name device in
  let! tool := set_parser R tool in
  if setup then tool_setup R tool else Ok tool.

  (** The second loop of [start]. *)
Fixpoint add_tools (reg : registry R) (device : string) (setup : bool)
    (tools : list string) (app : list Route) : result (list Route) :=
  match tools with
  | [] => Ok app
  | name :: rest =>
      let! tool := prepare_tool reg device setup name in
      add_tools reg device setup rest (add_tool L tool app)
  end.

  (** [start]: the routes of the application handed to [uvicorn.run]. *)
Definition start (reg : registry R) (tools : list string) (device : string)
    (setup : bool) (extra : option (list string)) : result (list Route) :=
  let app := [] in
  let! reg :=
    match extra with
    | Some paths => register_extra paths reg
    | None => Ok reg
    end in
  add_tools reg device setup tools app.

  (** The rows [list_available_tools] adds to its table for one extra
      path. *)
Definition extra_rows (path : string) : result (list (string * string)) :=
  let! names2tools := extract_all_tools R path in
  Ok (map (fun name => (name, path)) (sorted (elements (dom names2tools)))).

  (** [list_available_tools]: the rows of the printed table, a class name
      and its source each. *)
Definition list_available_tools (official : bool) (extra : option (list string))
  : result (list (string * string)) :=
  let table :=
    if official
    then map (fun name => (name, "[green]Official[/green]"))
           (sorted (elements (list_tools R)))
    else [] in
  let! rows :=
    match extra with
    | Some paths => mapM extra_rows paths
    | None => Ok []
    end in
  Ok (table ++ concat rows).

End Commands.

(** ** The OCR tool ([agentlego/tools/ocr/ocr.py]) *)
Module OCR.

  (** A coordinate of a character box: an integer or a finite float, kept
      as the rational it denotes. *)
Definition coordinate : Type := QArith_base.Q.

  (** [int(x)]: truncation towards zero. *)
Definition int (x : coordinate) : Z :=
  Z.quot (QArith_base.Qnum x) (Z.pos (QArith_base.Qden x)).

  (** [l[i]] on a list. *)
Definition getitem {A : Type} (l : list A) (i : nat) : result A :=
  match l !! i with
  | Some x => Ok x
  | None => Raise (OtherException "IndexError('list index out of range')")
  end.

  (** [min] and [max] of a list of integers. *)
Definition min (xs : list Z) : result Z :=
  match xs with
  | [] => Raise (OtherException "ValueError('min() arg is an empty sequence')")
  | x :: rest => Ok (foldl Z.min x rest)
  end.

Definition max (xs : list Z) : result Z :=
  match xs with
  | [] => Raise (OtherException "ValueError('max() arg is an empty sequence')")
  | x :: rest => Ok (foldl Z.max x rest)
  end.

Definition extract_bbox (char_boxes : list (list coordinate)) : result (Z * Z * Z * Z) :=
  let! xs := mapM (fun box => let! x := getitem box 0 in Ok (int x)) char_boxes in
  let! ys := mapM (fun box => let! y := getitem box 1 in Ok (int y)) char_boxes in
  let! x1 := min xs in
  let! y1 := min ys in
  let! x2 := max xs in
  let! y2 := max ys in
  Ok (x1, y1, x2, y2).

  (** [sep.join(parts)]. *)
Fixpoint join (sep : string) (parts : list string) : string :=
  match parts with
  | [] => EmptyString
  | [part] => part
  | part :: rest => part +:+ sep +:+ join sep rest
  end.

Definition newline : string := String (ascii_of_nat 10) EmptyString.

  (** ['({}, {}, {}, {}) {}'.format(x1, y1, x2, y2, pred)]. *)
Definition format (bbox : Z * Z * Z * Z) (pred : string) : string :=
  let '(x1, y1, x2, y2) := bbox in
  "(" +:+ pretty x1 +:+ ", " +:+ pretty y1 +:+ ", " +:+ pretty x2
  +:+ ", " +:+ pretty y2 +:+ ") " +:+ pred.

  (** One result of [readtext]: its character boxes ([result[0]]) and the
      recognized text ([result[1]]). *)
Record ocr_result : Type := {
  char_boxes : list (list coordinate);
  pred : string
}.

  (** The loop of [apply] over the results of the reader. *)
Definition outputs (ocr_results : list ocr_result) : result (list string) :=
  mapM (fun result =>
          let! bbox := extract_bbox (char_boxes result) in
          Ok (format bbox (pred result)))
    ocr_results.

Section Tool.
Context {ImageIO AudioIO : Type}.
Local Abbreviation pyval := (pyval ImageIO AudioIO).

  (** The [lang] argument of the constructor: a string or a sequence of
      strings. *)
Inductive lang_arg : Type :=
  | LangStr (lang : string)
  | LangSeq (langs : list string).

  (** The attributes [__init__] sets. *)
Record OCR : Type := {
  lang : list string;
  read_args : gmap string pyval;
  device : pyval
}.

  (** [d.setdefault(key, value)], for the dictionary it leaves. *)
Definition setdefault (d : gmap string pyval) (key : string) (value : pyval)
  : gmap string pyval :=
  match d !! key with
  | Some _ => d
  | None => <[ key := value ]> d
  end.

Definition init (lang0 : lang_arg) (device0 : pyval) (read_args0 : gmap string pyval)
  : OCR :=
  let lang1 :=
    match lang0 with
    | LangStr l => [l]
    | LangSeq ls => ls
    end in
  let read_args1 := setdefault read_args0 "decoder" (VStr "beamsearch") in
  let read_args2 := setdefault read_args1 "paragraph" (VBool true) in
  {| lang := lang1; read_args := read_args2; device := device0 |}.

  (** [apply], with [readtext image read_args] for
      [self._reader.readtext(image.to_array(), detail=1, **self.read_args)]. *)
Definition apply
    (readtext : ImageIO -> gmap string pyval -> result (list ocr_result))
    (self : OCR) (image : ImageIO) : result string :=
  let! ocr_results := readtext image (read_args self) in
  let! outs := outputs ocr_results in
  Ok (join newline outs).

End Tool.
Arguments lang_arg : clear implicits.
Arguments OCR : clear implicits.

End OCR.

(** ** More of the concrete environment: tools that fail, a registry and
    a reader *)
Module DemoMore.

  (** A tool that answers with an HTTP error of its own. *)
Definition not_found : BaseTool Demo.Image Demo.Audio :=
  {| t_name := "Image Search";
     t_description := "Finds an image.";
     t_inputs := [];
     t_outputs := [Demo.spec "image" T_ImageIO];
     t_call := fun _ => Raise (HTTPException 404 "no such image") |}.

  (** A tool that declares an image output and returns [outs]. *)
Definition draw (outs : pyval Demo.Image Demo.Audio) : BaseTool Demo.Image Demo.Audio :=
  {| t_name := "Draw";
     t_description := "Draws a picture.";
     t_inputs := [];
     t_outputs := [Demo.spec "image" T_ImageIO];
     t_call := fun _ => Ok outs |}.

  (** A registry that knows two tools, keeps the extra modules it was
      given and cannot resolve the module [missing.py]. *)
Definition tools : Registry Demo.Image Demo.Audio :=
  {| registry := list string;
     register_all_tools := fun path reg =>
       if String.eqb path "missing.py"
       then Raise (OtherException "ModuleNotFoundError()")
       else Ok (path :: reg);
     load_tool := fun _ name _ =>
       if String.eqb name "OCR" then Ok Demo.text_ocr
       else if String.eqb name "SpeechToText" then Ok Demo.transcribe
       else Raise (KeyError name);
     set_parser := fun tool => Ok tool;
     tool_setup := fun tool => Ok tool;
     list_tools := {[ "OCR"; "SpeechToText"; "Calculator" ]};
     extract_all_tools := fun path =>
       if String.eqb path "missing.py"
       then Raise (OtherException "ModuleNotFoundError()")
       else Ok {[ "TopK" := Demo.top_k; "Draw" := draw VNone ]} |}.

  (** The four corners of a character box, as the reader gives them. *)
Definition corners (x1 y1 x2 y2 : QArith_base.Q) : list (list OCR.coordinate) :=
  [[x1; y1]; [x2; y1]; [x2; y2]; [x1; y2]].

Definition half (n : Z) : QArith_base.Q := QArith_base.Qmake n 2.

Definition whole (n : Z) : QArith_base.Q := QArith_base.Qmake n 1.

  (** A reader that finds two texts. *)
Definition readtext (image : Demo.Image)
    (read_args : gmap string (pyval Demo.Image Demo.Audio))
  : result (list OCR.ocr_result) :=
  Ok [ {| OCR.char_boxes := corners (half 21) (whole 20) (whole 52) (half 63);
          OCR.pred := "EXIT" |};
       {| OCR.char_boxes := corners (whole 0) (half (-1)) (whole 8) (whole 8);
          OCR.pred := "hi" |} ].

End DemoMore.

(** * Properties *)

(** ** Strings *)

Lemma chars_append (s t : string) :
  PyStr.chars (s +:+ t) = PyStr.chars s ++ PyStr.chars t.
Proof.
  induction s as [|c s IH]; simpl; [reflexivity|]. now rewrite IH.
Qed.


(** Replacing the one-character string of a space by an underscore maps
    every character on its own. *)
Lemma replace_space_chars (s : string) :
  PyStr.chars (PyStr.replace " " "_" s)
  = map (fun c => if Ascii.eqb c " " then "_"%char else c) (PyStr.chars s).
Proof.
  unfold PyStr.replace.
  induction s as [|c s IH]; [reflexivity|].
  cbn [PyStr.replace_from PyStr.startswith PyStr.chars map String.length Nat.pred].
  rewrite Ascii.eqb_sym, andb_true_r.
  destruct (Ascii.eqb c " ").
  - rewrite chars_append. simpl. now rewrite IH.
  - simpl. now rewrite IH.
Qed.

Lemma replace_space_no_space (s : string) :
  " "%char ∉ PyStr.chars (PyStr.replace " " "_" s).
Proof.
  rewrite replace_space_chars. intros Hin.
  apply list_elem_of_fmap in Hin as (c & Hc & _).
  destruct (Ascii.eqb_spec c " "); [discriminate | congruence].
Qed.

(** [rpartition] when the separator does not occur. *)
Lemma rsplit_last_absent (sep : ascii) (s : string) :
  sep ∉ PyStr.chars s -> PyStr.rsplit_last sep s = None.
Proof.
  induction s as [|c s IH]; simpl; [reflexivity|].
  intros [Hne Hnot]%not_elem_of_cons. rewrite (IH Hnot).
  destruct (Ascii.eqb_spec c sep); [congruence | reflexivity].
Qed.

Lemma rpartition_absent (sep : ascii) (s : string) :
  sep ∉ PyStr.chars s -> PyStr.rpartition sep s = (EmptyString, EmptyString, s).
Proof.
  intros H. unfold PyStr.rpartition. now rewrite rsplit_last_absent.
Qed.

(** [rpartition] when the separator occurs: the split is at its last
    occurrence. *)
Lemma rsplit_last_present (sep : ascii) (stem ext : string) :
  sep ∉ PyStr.chars ext ->
  PyStr.rsplit_last sep (stem +:+ String sep ext) = Some (stem, ext).
Proof.
  intros Hext. induction stem as [|c stem IH]; simpl.
  - rewrite rsplit_last_absent by assumption. now rewrite Ascii.eqb_refl.
  - now rewrite IH.
Qed.

Lemma rsplit_last_None (sep : ascii) (s : string) :
  PyStr.rsplit_last sep s = None -> sep ∉ PyStr.chars s.
Proof.
  induction s as [|d s IH]; simpl.
  - intros _. apply not_elem_of_nil.
  - destruct (PyStr.rsplit_last sep s) as [[? ?]|]; [discriminate|].
    destruct (Ascii.eqb_spec d sep) as [|Hne]; [discriminate|].
    intros _. apply not_elem_of_cons. split; [congruence | now apply IH].
Qed.

(** [rpartition] at the last separator: the tail holds no separator. *)
Lemma rsplit_last_split (sep : ascii) (s h t : string) :
  PyStr.rsplit_last sep s = Some (h, t) ->
  s = h +:+ String sep t /\ sep ∉ PyStr.chars t.
Proof.
  revert h. induction s as [|c s IH]; simpl; [discriminate|].
  intros h. destruct (PyStr.rsplit_last sep s) as [[h' t']|] eqn:E.
  - intros [= <- <-]. destruct (IH h' eq_refl) as [-> Ht]. now split.
  - destruct (Ascii.eqb_spec c sep); [|discriminate].
    intros [= <- <-]. subst c. split; [reflexivity|].
    now apply rsplit_last_None.
Qed.

(** ** The schema synthesizer *)

Section SchemaProperties.
Context {ImageIO AudioIO : Type}.
Local Abbreviation ParameterSpec := (ParameterSpec ImageIO AudioIO).
Local Abbreviation BaseTool := (BaseTool ImageIO AudioIO).




(** C6. The response type of a tool: none when it declares no output; the
    annotation of its single output when it declares one; the tuple of the
    annotations of its outputs, as many and in the declared order, when it
    declares two or more.  The annotation of an output is a string of
    format [image/png;base64] for an image, a string of format
    [audio/wav;base64] for an audio clip, and the declared type with no
    format otherwise. *)
Theorem create_output_model_shape (tool : BaseTool) :
  (t_outputs tool = [] -> create_output_model tool = NoModel)
  /\ (forall p, t_outputs tool = [p] ->
        create_output_model tool = OneModel (output_annotation p))
  /\ (2 <= length (t_outputs tool) ->
        exists items,
          create_output_model tool = TupleModel items
          /\ length items = length (t_outputs tool)
          /\ forall i p, t_outputs tool !! i = Some p ->
               items !! i = Some (output_annotation p))%nat
  /\ (forall p : ParameterSpec,
        output_annotation p
        = match p_type p with
          | T_ImageIO =>
              {| ann_type := T_str;
                 ann_info := Field {[ "format" := "image/png;base64" ]} |}
          | T_AudioIO =>
              {| ann_type := T_str;
                 ann_info := Field {[ "format" := "audio/wav;base64" ]} |}
          | t => {| ann_type := t; ann_info := Field ∅ |}
          end).
Proof.
  unfold create_output_model. split; [|split; [|split]].
  - now intros ->.
  - now intros p ->.
  - intros Hlen. exists (map output_annotation (t_outputs tool)).
    destruct (t_outputs tool) as [|p [|q rest]]; cbn in Hlen; try lia.
    split; [reflexivity|]. split; [apply length_map|].
    intros i r Hr. now rewrite list_lookup_fmap, Hr.
  - intros p. unfold output_annotation. destruct (p_type p); reflexivity.
Qed.

End SchemaProperties.

(** ** The endpoint binder and the invocation adapter *)

Section ServerProperties.
Context {ImageIO AudioIO : Type}.
Context (L : Libs ImageIO AudioIO).
Local Abbreviation pyval := (pyval ImageIO AudioIO).
Local Abbreviation ParameterSpec := (ParameterSpec ImageIO AudioIO).
Local Abbreviation BaseTool := (BaseTool ImageIO AudioIO).
Local Abbreviation Route := (Route ImageIO AudioIO).


(** *** Argument decoding *)

Lemma decode_inputs_app (pre post : list ParameterSpec) (kwargs acc : gmap string pyval) :
  decode_inputs L (pre ++ post) kwargs acc
  = bind (decode_inputs L pre kwargs acc) (decode_inputs L post kwargs).
Proof.
  revert acc. induction pre as [|q pre IH]; intros acc; [reflexivity|].
  cbn [app decode_inputs].
  destruct (getitem kwargs (p_name q)) as [data|e]; [|reflexivity]. cbn [bind].
  destruct (p_type q).
  1: destruct (attr_file data) as [f|]; [|reflexivity]; cbn [bind];
     destruct (Image_open L f); [|reflexivity]; cbn [bind]; apply IH.
  1: destruct (attr_filename_rpartition data); [|reflexivity]; cbn [bind];
     destruct (attr_file data) as [f|]; [|reflexivity]; cbn [bind];
     destruct (torchaudio_load L f _); [|reflexivity]; cbn [bind]; apply IH.
  all: destruct data; try apply IH;
    (destruct (construct L _ _); [|reflexivity]); cbn [bind]; apply IH.
Qed.



(** Decoding stops at a media field whose incoming value is [None]: the
    attribute access on [None] raises. *)
Lemma decode_inputs_null_media (p : ParameterSpec) (rest : list ParameterSpec)
    (kwargs acc : gmap string pyval) :
  p_type p = T_ImageIO \/ p_type p = T_AudioIO ->
  kwargs !! p_name p = Some VNone ->
  decode_inputs L (p :: rest) kwargs acc
  = Raise (AttributeError "NoneType" (media_attr p)).
Proof.
  intros Hmedia Hnull. cbn [decode_inputs]. unfold getitem, media_attr.
  rewrite Hnull. cbn [bind].
  destruct Hmedia as [-> | ->]; reflexivity.
Qed.

(** The step of the decoder for an image or audio input never skips the
    input: when decoding goes on, the name is bound to the decoded media. *)
Lemma decode_inputs_media_binds (p : ParameterSpec) (rest : list ParameterSpec)
    (kwargs acc args : gmap string pyval) :
  p_type p = T_ImageIO \/ p_type p = T_AudioIO ->
  decode_inputs L (p :: rest) kwargs acc = Ok args ->
  exists v,
    decode_inputs L rest kwargs (<[ p_name p := v ]> acc) = Ok args
    /\ ((exists image, v = VImage image) \/ (exists audio, v = VAudio audio)).
Proof.
  intros Hmedia. cbn [decode_inputs].
  destruct (getitem kwargs (p_name p)) as [data|]; [|discriminate]. cbn [bind].
  destruct Hmedia as [-> | ->].
  - destruct (attr_file data) as [f|]; [|discriminate]. cbn [bind].
    destruct (Image_open L f) as [image|]; [|discriminate]. cbn [bind].
    intros H. exists (VImage image). eauto.
  - destruct (attr_filename_rpartition data) as [rp|]; [|discriminate]. cbn [bind].
    destruct (attr_file data) as [f|]; [|discriminate]. cbn [bind].
    destruct (torchaudio_load L f _) as [audio|]; [|discriminate]. cbn [bind].
    intros H. exists (VAudio audio). eauto.
Qed.

(** C9. A request whose value for an image or audio input is [None] is
    never answered by an invocation: the decoder does not skip the input
    but reads an attribute of [None], so argument decoding raises, [_call]
    raises the same exception and the tool is not called.  When the inputs
    declared before that field decode, the exception is the
    [AttributeError] of that attribute access, and the handler answers with
    the HTTP error 400 whose detail is its [repr]. *)
Theorem null_media_input_rejected (tool : BaseTool) (kwargs : gmap string pyval)
    (pre post : list ParameterSpec) (p : ParameterSpec) :
  t_inputs tool = pre ++ p :: post ->
  p_type p = T_ImageIO \/ p_type p = T_AudioIO ->
  kwargs !! p_name p = Some VNone ->
  (exists e,
      decode_inputs L (t_inputs tool) kwargs ∅ = Raise e
      /\ _call L tool kwargs = Raise e
      /\ (isinstance_Exception e = true ->
          call L tool kwargs = Raise (HTTPException 400 (repr L e)))
      /\ forall v, call L tool kwargs <> Ok v)
  /\ (forall args,
        decode_inputs L pre kwargs ∅ = Ok args ->
        decode_inputs L (t_inputs tool) kwargs ∅
        = Raise (AttributeError "NoneType" (media_attr p))
        /\ call L tool kwargs
           = Raise (HTTPException 400
                      (repr L (AttributeError "NoneType" (media_attr p))))).
Proof.
  intros Hin Hmedia Hnull.
  assert (Hdec : forall args, decode_inputs L pre kwargs ∅ = Ok args ->
            decode_inputs L (t_inputs tool) kwargs ∅
            = Raise (AttributeError "NoneType" (media_attr p))).
  { intros args Hpre. rewrite Hin, decode_inputs_app, Hpre. cbn [bind].
    now apply decode_inputs_null_media. }
  split.
  - assert (Hex : exists e, decode_inputs L (t_inputs tool) kwargs ∅ = Raise e).
    { destruct (decode_inputs L pre kwargs ∅) as [args|e] eqn:Hpre.
      - eexists. now apply (Hdec args).
      - exists e. now rewrite Hin, decode_inputs_app, Hpre. }
    destruct Hex as [e He]. exists e.
    assert (Hcall : _call L tool kwargs = Raise e) by (unfold _call; now rewrite He).
    split; [exact He|]. split; [exact Hcall|].
    unfold call. rewrite Hcall. split.
    + now intros ->.
    + intros v. destruct (isinstance_Exception e); discriminate.
  - intros args Hpre. split; [now apply (Hdec args)|].
    unfold call, _call. now rewrite (Hdec args Hpre).
Qed.

(** *** Output encoding *)

(** What the encoding loop appends to [res]: one encoded value for each
    pair, in the order of the pairs. *)
Lemma encode_outputs_spec (pairs : list (pyval * ParameterSpec)) (acc res : list pyval) :
  encode_outputs L pairs acc = Ok res ->
  exists res',
    res = acc ++ res'
    /\ length res' = length pairs
    /\ forall i out p, pairs !! i = Some (out, p) ->
         exists e, encode_output L p out = Ok e /\ res' !! i = Some e.
Proof.
  revert acc. induction pairs as [|[out p] pairs IH]; intros acc; cbn [encode_outputs].
  - intros [= <-]. exists []. rewrite app_nil_r.
    split; [reflexivity|]. split; [reflexivity|].
    intros i out p Hi. rewrite lookup_nil in Hi. discriminate.
  - destruct (encode_output L p out) as [o|] eqn:Ho; [|discriminate]. cbn [bind].
    intros Hres. destruct (IH _ Hres) as (res' & -> & Hlen & Hpos).
    exists (o :: res'). rewrite <- app_assoc. split; [reflexivity|].
    split; [cbn; now rewrite Hlen|].
    intros [|i] out' p' Hi.
    + injection Hi as <- <-. eauto.
    + apply (Hpos i out' p' Hi).
Qed.

(** A successful [_call] went through its three stages. *)
Lemma _call_Ok_inv (tool : BaseTool) (kwargs : gmap string pyval) (r : pyval) :
  _call L tool kwargs = Ok r ->
  exists args outs res,
    decode_inputs L (t_inputs tool) kwargs ∅ = Ok args
    /\ t_call tool args = Ok outs
    /\ encode_outputs L (zip (as_sequence outs) (t_outputs tool)) [] = Ok res
    /\ r = pack res.
Proof.
  unfold _call.
  destruct (decode_inputs L (t_inputs tool) kwargs ∅) as [args|]; [|discriminate].
  cbn [bind]. destruct (t_call tool args) as [outs|] eqn:Houts; [|discriminate].
  cbn [bind].
  destruct (encode_outputs L (zip (as_sequence outs) (t_outputs tool)) [])
    as [res|] eqn:Hres; [|discriminate].
  cbn [bind]. intros [= <-]. now exists args, outs, res.
Qed.

(** C1, amended. The arity of a successful response is fixed by the number
    [n] of (returned value, declared output) pairs, the smaller of the
    number of returned values (a return that is not a tuple counts as one)
    and the number of declared outputs: the response is [None] for
    [n = 0], the bare encoded first value for [n = 1], and for [n >= 2] a
    tuple of length [n] whose position [i] is the returned value [i] encoded
    under the declared output [i].  So a tool with no declared output is
    answered by [None], and a tool that returns as many values as it
    declares by the arity it declares. *)
Theorem response_arity (tool : BaseTool) (kwargs : gmap string pyval) (r : pyval) :
  _call L tool kwargs = Ok r ->
  exists args outs res,
    decode_inputs L (t_inputs tool) kwargs ∅ = Ok args
    /\ t_call tool args = Ok outs
    /\ length res = paired tool outs
    /\ (forall i out p,
          as_sequence outs !! i = Some out -> t_outputs tool !! i = Some p ->
          exists e, encode_output L p out = Ok e /\ res !! i = Some e)
    /\ (paired tool outs = 0%nat -> r = VNone)
    /\ (paired tool outs = 1%nat -> res = [r])
    /\ (2 <= paired tool outs -> r = VTuple res)%nat
    /\ (t_outputs tool = [] -> r = VNone)
    /\ (length (as_sequence outs) = length (t_outputs tool) ->
        length res = length (t_outputs tool)).
Proof.
  intros Hcall.
  destruct (_call_Ok_inv _ _ _ Hcall) as (args & outs & res & Hargs & Houts & Hres & ->).
  destruct (encode_outputs_spec _ _ _ Hres) as (res' & Heq & Hlen & Hpos).
  cbn [app] in Heq. subst res'.
  assert (Hn : length res = paired tool outs).
  { rewrite Hlen. apply length_zip_with. }
  exists args, outs, res. do 3 (split; [assumption|]).
  split.
  { intros i out p Ho Hp. apply Hpos.
    apply lookup_zip_with_Some. now exists out, p. }
  rewrite <- Hn.
  split; [|split; [|split; [|split]]].
  - destruct res; [reflexivity | discriminate].
  - destruct res as [|x [|y res]]; cbn; try discriminate. reflexivity.
  - destruct res as [|x [|y res]]; cbn; try lia. reflexivity.
  - intros Hnone. unfold paired in Hn. rewrite Hnone, Nat.min_0_r in Hn.
    destruct res; [reflexivity | discriminate].
  - intros Hsame. unfold paired in Hn. lia.
Qed.

(** C10. The returned values and the declared outputs are paired by
    position, and only as many pairs as the shorter of the two are encoded:
    the response is computed from the first [n] values and the first [n]
    declared outputs, [n] the smaller of the two lengths, and has [n]
    elements.  Values returned beyond the declared outputs are dropped
    without an error, and outputs declared beyond the returned values add
    nothing to the response. *)
Theorem encode_pairs_truncate (tool : BaseTool) (kwargs args : gmap string pyval)
    (outs : pyval) :
  decode_inputs L (t_inputs tool) kwargs ∅ = Ok args ->
  t_call tool args = Ok outs ->
  (forall i out p,
      zip (as_sequence outs) (t_outputs tool) !! i = Some (out, p)
      <-> as_sequence outs !! i = Some out /\ t_outputs tool !! i = Some p)
  /\ _call L tool kwargs
     = bind (encode_outputs L
               (zip (take (paired tool outs) (as_sequence outs))
                    (take (paired tool outs) (t_outputs tool))) [])
         (fun res => Ok (pack res))
  /\ (forall r, _call L tool kwargs = Ok r ->
        exists res, r = pack res /\ length res = paired tool outs)
  /\ (forall kept surplus,
        as_sequence outs = kept ++ surplus ->
        length kept = length (t_outputs tool) ->
        _call L tool kwargs
        = bind (encode_outputs L (zip kept (t_outputs tool)) [])
            (fun res => Ok (pack res)))
  /\ (forall used unused,
        t_outputs tool = used ++ unused ->
        length used = length (as_sequence outs) ->
        _call L tool kwargs
        = bind (encode_outputs L (zip (as_sequence outs) used) [])
            (fun res => Ok (pack res))).
Proof.
  intros Hargs Houts.
  assert (Hcall : _call L tool kwargs
                  = bind (encode_outputs L (zip (as_sequence outs) (t_outputs tool)) [])
                      (fun res => Ok (pack res))).
  { unfold _call. now rewrite Hargs; cbn [bind]; rewrite Houts. }
  split; [|split; [|split; [|split]]].
  - intros i out p. rewrite lookup_zip_with_Some. split.
    + intros (x & y & [= -> ->] & Hx & Hy). now split.
    + intros [Hx Hy]. now exists out, p.
  - rewrite Hcall. unfold paired.
    now rewrite zip_with_take_both' by lia.
  - intros r Hr. rewrite Hcall in Hr.
    destruct (encode_outputs L (zip (as_sequence outs) (t_outputs tool)) [])
      as [res|] eqn:Hres; [|discriminate].
    injection Hr as <-. exists res. split; [reflexivity|].
    destruct (encode_outputs_spec _ _ _ Hres) as (res' & Heq & Hlen & _).
    cbn [app] in Heq. subst res'. rewrite Hlen. apply length_zip_with.
  - intros kept surplus Hsplit Hlen. rewrite Hcall, Hsplit.
    rewrite zip_with_app_l, Hlen, take_ge, drop_ge by lia.
    now rewrite zip_with_nil_r, app_nil_r.
  - intros used unused Hsplit Hlen. rewrite Hcall, Hsplit.
    rewrite zip_with_app_r, Hlen, take_ge, drop_ge by lia.
    now rewrite app_nil_r.
Qed.

(** *** The handler *)

Lemma raised_in_iff (tool : BaseTool) (kwargs : gmap string pyval) (e : exn) :
  raised_in L tool kwargs e <-> _call L tool kwargs = Raise e.
Proof.
  unfold _call. split.
  - intros [Hd | args Hd Hi | args outs Hd Hi He].
    + now rewrite Hd.
    + rewrite Hd; cbn [bind]. now rewrite Hi.
    + rewrite Hd; cbn [bind]. rewrite Hi; cbn [bind]. now rewrite He.
  - destruct (decode_inputs L (t_inputs tool) kwargs ∅) as [args|e'] eqn:Hd;
      cbn [bind].
    2: { intros [= ->]. now apply raised_decoding. }
    destruct (t_call tool args) as [outs|e'] eqn:Hi; cbn [bind].
    2: { intros [= ->]. now apply raised_invoking with args. }
    destruct (encode_outputs L (zip (as_sequence outs) (t_outputs tool)) [])
      as [res|e'] eqn:He; cbn [bind]; [discriminate|].
    intros [= ->]. now apply raised_encoding with args outs.
Qed.

(** The handler returns exactly what [_call] returns. *)
Lemma call_Ok_iff (tool : BaseTool) (kwargs : gmap string pyval) (v : pyval) :
  call L tool kwargs = Ok v <-> _call L tool kwargs = Ok v.
Proof.
  unfold call. destruct (_call L tool kwargs) as [r|e]; [reflexivity|].
  destruct (isinstance_Exception e); split; discriminate.
Qed.

(** C2, amended. An exception raised during argument decoding, during the
    invocation of the tool or during output encoding ends the request
    without a result.  When it is an instance of [Exception] the handler
    raises the HTTP error 400 whose detail is the [repr] of the exception;
    when it is not ([KeyboardInterrupt], [SystemExit]) it leaves the
    handler as it is. *)
Theorem call_surfaces_exception (tool : BaseTool) (kwargs : gmap string pyval)
    (e : exn) :
  raised_in L tool kwargs e ->
  (isinstance_Exception e = true ->
     call L tool kwargs = Raise (HTTPException 400 (repr L e)))
  /\ (isinstance_Exception e = false -> call L tool kwargs = Raise e)
  /\ (forall v, call L tool kwargs <> Ok v).
Proof.
  intros Hraised%raised_in_iff. unfold call. rewrite Hraised.
  destruct (isinstance_Exception e); repeat split; try discriminate.
Qed.

(** The exceptions of the server's own accesses are instances of
    [Exception]: a missing keyword argument or a missing attribute is
    always answered by the HTTP error 400. *)
Lemma own_exceptions_are_caught (tool : BaseTool) (kwargs : gmap string pyval)
    (e : exn) :
  raised_in L tool kwargs e ->
  (exists k, e = KeyError k) \/ (exists t a, e = AttributeError t a) ->
  call L tool kwargs = Raise (HTTPException 400 (repr L e)).
Proof.
  intros Hraised%raised_in_iff Hown. unfold call. rewrite Hraised.
  destruct Hown as [[k ->] | (t & a & ->)]; reflexivity.
Qed.

(** C5. For an audio upload whose file name is not empty and has no dot,
    the format handed to [torchaudio.load] is the whole file name: the
    last component of [rpartition] is then the name itself, which is
    truthy, so [or None] does not apply. *)
Theorem audio_format_without_extension (p : ParameterSpec) (rest : list ParameterSpec)
    (kwargs acc : gmap string pyval) (filename : string) (file : list Byte.byte) :
  p_type p = T_AudioIO ->
  kwargs !! p_name p = Some (VUploadFile (Some filename) file) ->
  "."%char ∉ PyStr.chars filename ->
  filename <> EmptyString ->
  decode_inputs L (p :: rest) kwargs acc
  = bind (torchaudio_load L file (Some filename))
      (fun audio => decode_inputs L rest kwargs (<[ p_name p := VAudio audio ]> acc)).
Proof.
  intros Htype Hdata Hdot Hne. cbn [decode_inputs]. unfold getitem.
  rewrite Hdata, Htype. cbn [bind attr_filename_rpartition attr_file].
  rewrite rpartition_absent by assumption. cbn [snd].
  destruct filename; [congruence | reflexivity].
Qed.

(** With an extension, the format is what follows the last dot; a name
    that ends in a dot gives no format. *)
Lemma audio_format_with_extension (stem ext : string) :
  "."%char ∉ PyStr.chars ext ->
  or_None (PyStr.rpartition "." (stem +:+ String "." ext)).2
  = if PyStr.truthy ext then Some ext else None.
Proof.
  intros Hext. unfold PyStr.rpartition.
  now rewrite rsplit_last_present.
Qed.

End ServerProperties.

(** ** The properties on the concrete environment *)

Example replace_examples :
  PyStr.replace " " "_" "Text OCR" = "Text_OCR"
  /\ PyStr.replace " " "_" " a  b " = "_a__b_"
  /\ PyStr.replace "aa" "b" "aaa" = "ba".
Proof. repeat split. Qed.

Example rpartition_examples :
  PyStr.rpartition "." "a.b.wav" = ("a.b", ".", "wav")
  /\ PyStr.rpartition "." "speech" = ("", "", "speech")
  /\ PyStr.rpartition "." "speech." = ("speech", ".", "").
Proof. repeat split. Qed.

Example or_None_examples :
  map (fun name => or_None (PyStr.rpartition "." name).2)
    ["clip.wav"; "clip.tar.gz"; "clip."; ""; "clip"]
  = [Some "wav"; Some "gz"; None; None; Some "clip"].
Proof. reflexivity. Qed.

Example b64encode_examples :
  map Base64.b64encode (map list_byte_of_string ["Man"; "Ma"; "M"; ""; "light work."])
  = ["TWFu"; "TWE="; "TQ=="; ""; "bGlnaHQgd29yay4="].
Proof. reflexivity. Qed.

Example text_ocr_route :
  map path (add_tool Demo.libs Demo.text_ocr []) = ["/Text_OCR"]
  /\ create_output_model Demo.text_ocr
     = OneModel {| ann_type := T_str; ann_info := Field ∅ |}
  /\ call Demo.libs Demo.text_ocr
       {[ "image" := VUploadFile (Some "scan.png") (list_byte_of_string "PNG") ]}
     = Ok (VStr "(0, 0, 8, 8) hi").
Proof. repeat split; vm_compute; reflexivity. Qed.

Example top_k_default_is_the_tool's :
  _call Demo.libs Demo.top_k {[ "query" := VStr "cats"; "k" := VNone ]}
  = Ok (VStr "k omitted")
  /\ _call Demo.libs Demo.top_k {[ "query" := VStr "cats"; "k" := VInt 3 ]}
     = Ok (VStr "k given").
Proof. split; vm_compute; reflexivity. Qed.

Example transcribe_formats :
  decode_inputs Demo.libs (t_inputs Demo.transcribe)
    {[ "clip" := VUploadFile (Some "speech.wav") (list_byte_of_string "RIFF") ]} ∅
  = Ok {[ "clip" := VAudio (Some "wav", list_byte_of_string "RIFF") ]}
  /\ decode_inputs Demo.libs (t_inputs Demo.transcribe)
       {[ "clip" := VUploadFile (Some "speech.") (list_byte_of_string "RIFF") ]} ∅
     = Ok {[ "clip" := VAudio (None, list_byte_of_string "RIFF") ]}.
Proof. split; vm_compute; reflexivity. Qed.



Lemma null_media_input_rejected_witness :
  call Demo.libs Demo.transcribe {[ "clip" := VNone ]}
  = Raise (HTTPException 400
             (repr Demo.libs (AttributeError "NoneType" "filename"))).
Proof.
  assert (Hnull : ({[ "clip" := VNone ]} : gmap string (pyval Demo.Image Demo.Audio))
                  !! p_name (Demo.optional_spec "clip" T_AudioIO VNone) = Some VNone)
    by (vm_compute; reflexivity).
  destruct (null_media_input_rejected Demo.libs Demo.transcribe
              {[ "clip" := VNone ]} [] []
              (Demo.optional_spec "clip" T_AudioIO VNone)
              eq_refl (or_intror eq_refl) Hnull)
    as [_ Hreached].
  exact (proj2 (Hreached ∅ eq_refl)).
Defined.

Lemma response_arity_witness :
  exists outs : pyval Demo.Image Demo.Audio,
    outs = VStr "(0, 0, 8, 8) hi"
    /\ paired Demo.text_ocr outs = 1%nat
    /\ _call Demo.libs Demo.text_ocr
         {[ "image" := VUploadFile (Some "scan.png") (list_byte_of_string "PNG") ]}
       = Ok outs.
Proof.
  assert (Hcall : _call Demo.libs Demo.text_ocr
            {[ "image" := VUploadFile (Some "scan.png") (list_byte_of_string "PNG") ]}
          = Ok (VStr "(0, 0, 8, 8) hi")) by (vm_compute; reflexivity).
  destruct (response_arity Demo.libs Demo.text_ocr _ _ Hcall)
    as (args & outs & res & _ & Houts & Hlen & _ & _ & Hone & _).
  cbn in Houts. injection Houts as <-.
  exists (VStr "(0, 0, 8, 8) hi").
  split; [reflexivity|]. split; [|exact Hcall].
  rewrite <- Hlen, (Hone eq_refl). reflexivity.
Defined.

(** C1 as stated fails: a tool that declares two outputs and returns one
    bare value is answered by that value, not by a tuple of length two. *)
Lemma response_arity_not_declared_arity :
  length (t_outputs (Demo.two_outputs (VStr "a cat"))) = 2%nat
  /\ _call Demo.libs (Demo.two_outputs (VStr "a cat")) ∅ = Ok (VStr "a cat")
  /\ ~ (exists res,
          _call Demo.libs (Demo.two_outputs (VStr "a cat")) ∅ = Ok (VTuple res)
          /\ length res = 2%nat).
Proof.
  split; [reflexivity|]. split; [vm_compute; reflexivity|].
  intros (res & Hres & _). vm_compute in Hres. discriminate.
Qed.

Lemma encode_pairs_truncate_witness :
  _call Demo.libs
    (Demo.two_outputs (VTuple [VStr "a cat"; VInt 7; VStr "surplus"])) ∅
  = Ok (VTuple [VStr "a cat"; VInt 7]).
Proof.
  destruct (encode_pairs_truncate Demo.libs
              (Demo.two_outputs (VTuple [VStr "a cat"; VInt 7; VStr "surplus"]))
              ∅ ∅ (VTuple [VStr "a cat"; VInt 7; VStr "surplus"]) eq_refl eq_refl)
    as (_ & _ & _ & Hsurplus & _).
  rewrite (Hsurplus [VStr "a cat"; VInt 7] [VStr "surplus"] eq_refl eq_refl).
  vm_compute. reflexivity.
Defined.

Lemma call_surfaces_exception_witness :
  call Demo.libs Demo.text_ocr ∅ = Raise (HTTPException 400 "KeyError('image')").
Proof.
  assert (Hraised : raised_in Demo.libs Demo.text_ocr ∅ (KeyError "image"))
    by (apply raised_decoding; vm_compute; reflexivity).
  exact (proj1 (call_surfaces_exception Demo.libs Demo.text_ocr ∅ _ Hraised) eq_refl).
Defined.

(** C2 as stated fails: an interruption of the tool is not an instance of
    [Exception]; it leaves the handler as it is and no HTTP error is
    raised. *)
Lemma interruption_not_caught :
  raised_in Demo.libs Demo.interrupted ∅ (BaseExceptionOnly "KeyboardInterrupt()")
  /\ call Demo.libs Demo.interrupted ∅ = Raise (BaseExceptionOnly "KeyboardInterrupt()")
  /\ ~ (exists detail,
          call Demo.libs Demo.interrupted ∅ = Raise (HTTPException 400 detail)).
Proof.
  split; [|split].
  - apply raised_invoking with (args := ∅); vm_compute; reflexivity.
  - vm_compute. reflexivity.
  - intros [detail H]. vm_compute in H. discriminate.
Qed.

Lemma audio_format_without_extension_witness :
  decode_inputs Demo.libs (t_inputs Demo.transcribe)
    {[ "clip" := VUploadFile (Some "speech") (list_byte_of_string "RIFF") ]} ∅
  = Ok {[ "clip" := VAudio (Some "speech", list_byte_of_string "RIFF") ]}.
Proof.
  rewrite (audio_format_without_extension Demo.libs
             (Demo.optional_spec "clip" T_AudioIO VNone) []
             {[ "clip" := VUploadFile (Some "speech") (list_byte_of_string "RIFF") ]}
             ∅ "speech" (list_byte_of_string "RIFF") eq_refl).
  - vm_compute. reflexivity.
  - vm_compute. reflexivity.
  - apply (bool_decide_unpack _). vm_compute. exact I.
  - discriminate.
Defined.

(** * Further properties of the server and of the OCR tool *)

(** ** Argument decoding *)

Section DecodingProperties.
Context {ImageIO AudioIO : Type}.
Context (L : Libs ImageIO AudioIO).
Local Abbreviation pyval := (pyval ImageIO AudioIO).
Local Abbreviation ParameterSpec := (ParameterSpec ImageIO AudioIO).
Local Abbreviation BaseTool := (BaseTool ImageIO AudioIO).

(** One step of the decoder, read off a successful run: the input is
    skipped when it is no media field and its value is [None], and is bound
    to a decoded value otherwise; in both cases the request holds a value
    for it. *)
Lemma decode_inputs_cons_Ok (p : ParameterSpec) (rest : list ParameterSpec)
    (kwargs acc args : gmap string pyval) :
  decode_inputs L (p :: rest) kwargs acc = Ok args ->
  exists data,
    kwargs !! p_name p = Some data
    /\ ((data = VNone /\ p_type p <> T_ImageIO /\ p_type p <> T_AudioIO
         /\ decode_inputs L rest kwargs acc = Ok args)
        \/ (exists v,
              decode_inputs L rest kwargs (<[ p_name p := v ]> acc) = Ok args
              /\ (data = VNone -> False))).
Proof.
  cbn [decode_inputs]. unfold getitem.
  destruct (kwargs !! p_name p) as [data|]; [|discriminate]. cbn [bind].
  intros H. exists data. split; [reflexivity|].
  destruct (p_type p) eqn:Ht.
  1: { destruct data; try discriminate. cbn in H.
       destruct (Image_open L file); [|discriminate]. cbn in H.
       right. eexists. split; [exact H | discriminate]. }
  1: { destruct data as [| | | | |[fn|] f| | |]; try discriminate. cbn in H.
       destruct (torchaudio_load L f _); [|discriminate]. cbn in H.
       right. eexists. split; [exact H | discriminate]. }
  all: destruct data;
    try (left; repeat split; [discriminate | discriminate | exact H]);
    (destruct (construct L _ _) as [v|]; [|discriminate]);
    right; exists v; (split; [exact H | discriminate]).
Qed.

(** X1. Every argument the tool is invoked with carries the name of a declared
    input for which the request holds a value other than [None]: the
    decoder passes on nothing the tool does not declare, and nothing the
    request leaves out. *)
Theorem decode_inputs_only_declared (tool : BaseTool) (kwargs args : gmap string pyval)
    (name : string) :
  decode_inputs L (t_inputs tool) kwargs ∅ = Ok args ->
  is_Some (args !! name) ->
  exists p data,
    p ∈ t_inputs tool /\ p_name p = name
    /\ kwargs !! name = Some data /\ data <> VNone.
Proof.
  assert (Hgen : forall inputs acc,
    decode_inputs L inputs kwargs acc = Ok args ->
    is_Some (args !! name) ->
    is_Some (acc !! name)
    \/ exists p data, p ∈ inputs /\ p_name p = name
                      /\ kwargs !! name = Some data /\ data <> VNone).
  { induction inputs as [|q inputs IH]; intros acc Hdec Hin.
    - cbn in Hdec. injection Hdec as <-. now left.
    - apply decode_inputs_cons_Ok in Hdec
        as (data & Hdata & [(_ & _ & _ & Hrest) | (v & Hrest & Hnn)]).
      + destruct (IH _ Hrest Hin) as [Hacc | (p & d & Hp & Hrem)]; [now left|].
        right. exists p, d. split; [now apply list_elem_of_further | exact Hrem].
      + destruct (IH _ Hrest Hin) as [Hacc | (p & d & Hp & Hrem)].
        * destruct (decide (p_name q = name)) as [Heq|Hne].
          -- right. exists q, data. split; [apply list_elem_of_here|].
             split; [exact Heq|]. rewrite <- Heq. split; [exact Hdata | congruence].
          -- left. now rewrite lookup_insert_ne in Hacc.
        * right. exists p, d. split; [now apply list_elem_of_further | exact Hrem]. }
  intros Hdec Hin.
  destruct (Hgen _ _ Hdec Hin) as [Hempty | H]; [|exact H].
  rewrite lookup_empty in Hempty. now destruct Hempty.
Qed.

(** X2. The decoder reads the request only at the names of the declared
    inputs: two requests that agree there are decoded alike, and answered
    alike. *)
Theorem decode_inputs_reads_declared (tool : BaseTool) (kwargs1 kwargs2 : gmap string pyval) :
  (forall p, p ∈ t_inputs tool -> kwargs1 !! p_name p = kwargs2 !! p_name p) ->
  decode_inputs L (t_inputs tool) kwargs1 ∅ = decode_inputs L (t_inputs tool) kwargs2 ∅
  /\ _call L tool kwargs1 = _call L tool kwargs2
  /\ call L tool kwargs1 = call L tool kwargs2.
Proof.
  intros Hagree.
  assert (Hdec : forall inputs acc,
    (forall p, p ∈ inputs -> kwargs1 !! p_name p = kwargs2 !! p_name p) ->
    decode_inputs L inputs kwargs1 acc = decode_inputs L inputs kwargs2 acc).
  { induction inputs as [|q inputs IH]; intros acc Hq; [reflexivity|].
    cbn [decode_inputs]. unfold getitem.
    rewrite (Hq q) by apply list_elem_of_here.
    assert (IH' : forall acc', decode_inputs L inputs kwargs1 acc'
                               = decode_inputs L inputs kwargs2 acc').
    { intros acc'. apply IH. intros p Hp. apply Hq. now apply list_elem_of_further. }
    destruct (kwargs2 !! p_name q) as [data|]; [|reflexivity]. cbn [bind].
    destruct (p_type q).
    1: destruct (attr_file data) as [f|]; [|reflexivity]; cbn [bind];
       destruct (Image_open L f); [|reflexivity]; cbn [bind]; apply IH'.
    1: destruct (attr_filename_rpartition data); [|reflexivity]; cbn [bind];
       destruct (attr_file data) as [f|]; [|reflexivity]; cbn [bind];
       destruct (torchaudio_load L f _); [|reflexivity]; cbn [bind]; apply IH'.
    all: destruct data; try apply IH';
      (destruct (construct L _ _); [|reflexivity]); cbn [bind]; apply IH'. }
  assert (H1 := Hdec _ ∅ Hagree).
  assert (H2 : _call L tool kwargs1 = _call L tool kwargs2)
    by (unfold _call; now rewrite H1).
  split; [exact H1|]. split; [exact H2|]. unfold call. now rewrite H2.
Qed.


(** A name that no input of [inputs] carries is left as it was. *)
Lemma decode_inputs_other (inputs : list ParameterSpec) (kwargs acc args : gmap string pyval)
    (name : string) :
  (forall q, q ∈ inputs -> p_name q <> name) ->
  decode_inputs L inputs kwargs acc = Ok args ->
  args !! name = acc !! name.
Proof.
  revert acc. induction inputs as [|q inputs IH]; intros acc Hother Hdec.
  - cbn in Hdec. now injection Hdec as <-.
  - assert (Hq : p_name q <> name) by (apply Hother, list_elem_of_here).
    assert (Hrest : forall r, r ∈ inputs -> p_name r <> name)
      by (intros r Hr; apply Hother; now apply list_elem_of_further).
    apply decode_inputs_cons_Ok in Hdec
      as (data & _ & [(_ & _ & _ & Hd) | (v & Hd & _)]).
    + now apply IH.
    + rewrite (IH _ Hrest Hd). now apply lookup_insert_ne.
Qed.

(** X4. What a successful decoding binds an input to, when no later input
    carries its name: an image to what [Image.open] makes of the uploaded
    file, an audio clip to what [torchaudio.load] makes of it under the
    format read off the file name, and any other value that is not [None]
    to the declared type called on it. *)
Theorem decode_inputs_binds (tool : BaseTool) (kwargs args : gmap string pyval)
    (pre post : list ParameterSpec) (p : ParameterSpec) (data : pyval) :
  t_inputs tool = pre ++ p :: post ->
  (forall q, q ∈ post -> p_name q <> p_name p) ->
  kwargs !! p_name p = Some data ->
  data <> VNone ->
  decode_inputs L (t_inputs tool) kwargs ∅ = Ok args ->
  match p_type p with
  | T_ImageIO =>
      exists filename file image,
        data = VUploadFile filename file
        /\ Image_open L file = Ok image
        /\ args !! p_name p = Some (VImage image)
  | T_AudioIO =>
      exists filename file audio,
        data = VUploadFile (Some filename) file
        /\ torchaudio_load L file (or_None (PyStr.rpartition "." filename).2) = Ok audio
        /\ args !! p_name p = Some (VAudio audio)
  | t =>
      exists v, construct L t data = Ok v /\ args !! p_name p = Some v
  end.
Proof.
  intros Hin Hlast Hdata Hnn Hdec.
  rewrite Hin, decode_inputs_app in Hdec.
  destruct (decode_inputs L pre kwargs ∅) as [acc|]; [|discriminate].
  cbn [bind] in Hdec.
  assert (Hbound : forall v, decode_inputs L post kwargs (<[ p_name p := v ]> acc) = Ok args ->
                             args !! p_name p = Some v).
  { intros v Hv. rewrite (decode_inputs_other _ _ _ _ _ Hlast Hv).
    apply lookup_insert_eq. }
  cbn [decode_inputs] in Hdec. unfold getitem in Hdec.
  rewrite Hdata in Hdec. cbn [bind] in Hdec.
  destruct (p_type p).
  1: { destruct data as [| | | | |fn f| | |]; try discriminate. cbn in Hdec.
       destruct (Image_open L f) as [image|] eqn:Himg; [|discriminate]. cbn in Hdec.
       exists fn, f, image. eauto. }
  1: { destruct data as [| | | | |[fn|] f| | |]; try discriminate. cbn in Hdec.
       destruct (torchaudio_load L f _) as [audio|] eqn:Haud; [|discriminate].
       cbn in Hdec. exists fn, f, audio. eauto. }
  all: destruct data; try congruence;
    (destruct (construct L _ _) as [v|] eqn:Hv; [|discriminate]);
    cbn in Hdec; exists v; eauto.
Qed.

End DecodingProperties.

(** ** Base64 text *)






(** ** Output encoding and the handler *)

Section EncodingProperties.
Context {ImageIO AudioIO : Type}.
Context (L : Libs ImageIO AudioIO).
Local Abbreviation pyval := (pyval ImageIO AudioIO).
Local Abbreviation ParameterSpec := (ParameterSpec ImageIO AudioIO).
Local Abbreviation BaseTool := (BaseTool ImageIO AudioIO).


(** The encoding loop on outputs that are neither images nor audio clips
    returns the paired values as they are. *)
Lemma encode_outputs_plain (pairs : list (pyval * ParameterSpec)) (acc : list pyval) :
  Forall (fun pr => p_type pr.2 <> T_ImageIO /\ p_type pr.2 <> T_AudioIO) pairs ->
  encode_outputs L pairs acc = Ok (acc ++ map fst pairs).
Proof.
  revert acc. induction pairs as [|[out p] pairs IH]; intros acc Hplain.
  - cbn. now rewrite app_nil_r.
  - apply Forall_cons in Hplain as [[Hi Ha] Hrest]. cbn in Hi, Ha.
    cbn [encode_outputs]. unfold encode_output.
    destruct (p_type p); try congruence; cbn [bind];
      rewrite (IH _ Hrest), <- app_assoc; reflexivity.
Qed.

(** X5. A tool whose declared outputs are neither images nor audio clips is
    answered with the values it returned, unchanged: [None] for none, the
    bare first value for one, the tuple of the first values otherwise, as
    many as there are pairs.  Encoding cannot fail for such a tool. *)
Theorem plain_outputs_pass_through (tool : BaseTool) (kwargs args : gmap string pyval)
    (outs : pyval) :
  (forall p, p ∈ t_outputs tool -> p_type p <> T_ImageIO /\ p_type p <> T_AudioIO) ->
  decode_inputs L (t_inputs tool) kwargs ∅ = Ok args ->
  t_call tool args = Ok outs ->
  _call L tool kwargs = Ok (pack (take (length (t_outputs tool)) (as_sequence outs)))
  /\ call L tool kwargs = Ok (pack (take (length (t_outputs tool)) (as_sequence outs))).
Proof.
  intros Hplain Hargs Houts.
  assert (Hcall : _call L tool kwargs
                  = Ok (pack (take (length (t_outputs tool)) (as_sequence outs)))).
  { unfold _call. rewrite Hargs; cbn [bind]. rewrite Houts; cbn [bind].
    rewrite encode_outputs_plain.
    - cbn [bind app]. do 2 f_equal.
      rewrite <- (zip_with_take_l pair (as_sequence outs) (t_outputs tool)).
      apply fst_zip. rewrite length_take. lia.
    - apply Forall_forall. intros [out p] Hin. cbn.
      apply Hplain. now apply elem_of_zip_r in Hin. }
  split; [exact Hcall|]. unfold call. now rewrite Hcall.
Qed.

End EncodingProperties.

Section HandlerProperties.
Context {ImageIO AudioIO : Type}.
Context (L : Libs ImageIO AudioIO).
Local Abbreviation pyval := (pyval ImageIO AudioIO).
Local Abbreviation ParameterSpec := (ParameterSpec ImageIO AudioIO).
Local Abbreviation BaseTool := (BaseTool ImageIO AudioIO).
Local Abbreviation Route := (Route ImageIO AudioIO).



(** X8. The only instances of [Exception] that leave the handler are HTTP
    errors of status 400, whose detail is the [repr] of an exception raised
    while the request was handled.  In particular an [HTTPException] of the
    tool's own, whatever its status, is answered as a 400. *)
Theorem call_status_always_400 (tool : BaseTool) (kwargs : gmap string pyval) (e : exn) :
  call L tool kwargs = Raise e ->
  isinstance_Exception e = true ->
  exists e0,
    raised_in L tool kwargs e0
    /\ isinstance_Exception e0 = true
    /\ e = HTTPException 400 (repr L e0).
Proof.
  unfold call. destruct (_call L tool kwargs) as [v|e0] eqn:Hcall; [discriminate|].
  destruct (isinstance_Exception e0) eqn:He0.
  - intros [= <-] _. exists e0. split; [now apply raised_in_iff | now split].
  - intros [= <-]. congruence.
Qed.

Lemma app_singleton_inv {A : Type} (l : list A) (x y : A) :
  l ++ [x] = l ++ [y] -> x = y.
Proof. intros H. apply app_inv_head in H. now injection H. Qed.


(** X10. The format read off the file name of an audio upload: what follows the
    last dot, which holds no dot and is not empty; and no format exactly
    when the name is empty or ends in a dot. *)
Theorem file_format_cases (filename : string) :
  match or_None (PyStr.rpartition "." filename).2 with
  | Some fmt =>
      ("."%char ∉ PyStr.chars fmt) /\ fmt <> EmptyString
      /\ (filename = fmt \/ exists stem, filename = stem +:+ String "." fmt)
  | None =>
      filename = EmptyString \/ exists stem, filename = stem +:+ "."
  end.
Proof.
  unfold PyStr.rpartition.
  destruct (PyStr.rsplit_last "." filename) as [[h t]|] eqn:E; cbn [snd].
  - apply rsplit_last_split in E as [-> Ht].
    unfold or_None. destruct t as [|c t]; cbn [PyStr.truthy].
    + right. now exists h.
    + split; [exact Ht|]. split; [discriminate|]. right. now exists h.
  - apply rsplit_last_None in E.
    unfold or_None. destruct filename as [|c s]; cbn [PyStr.truthy].
    + now left.
    + split; [exact E|]. split; [discriminate | now left].
Qed.

End HandlerProperties.

(** ** Loops that may raise *)

Lemma mapM_Ok {A B : Type} (f : A -> result B) (l : list A) (ys : list B) :
  mapM f l = Ok ys <-> Forall2 (fun x y => f x = Ok y) l ys.
Proof.
  revert ys. induction l as [|x l IH]; intros ys; cbn [mapM].
  - split.
    + intros [= <-]. constructor.
    + intros H. apply Forall2_nil_inv_l in H. now subst.
  - split.
    + destruct (f x) as [y|] eqn:Hy; [|discriminate]. cbn [bind].
      destruct (mapM f l) as [ys'|]; [|discriminate]. cbn [bind].
      intros [= <-]. constructor; [exact Hy | now apply IH].
    + intros H. apply Forall2_cons_inv_l in H as (y & ys' & Hy & Hrest & ->).
      rewrite Hy. cbn [bind]. apply IH in Hrest. now rewrite Hrest.
Qed.


(** ** Starting the server and listing the tools *)

Section CommandProperties.
Context {ImageIO AudioIO : Type}.
Context (L : Libs ImageIO AudioIO).
Context (R : Registry ImageIO AudioIO).
Local Abbreviation BaseTool := (BaseTool ImageIO AudioIO).
Local Abbreviation Route := (Route ImageIO AudioIO).




Lemma sorted_spec (names : list string) :
  sorted names ≡ₚ names /\ StronglySorted String.le (sorted names).
Proof.
  unfold sorted. split.
  - apply merge_sort_Permutation.
  - apply (StronglySorted_merge_sort _).
Qed.

(** X13. The listing of the official tools: when asked for, the table starts
    with one row for each name of [list_tools()], in ascending order and
    marked as official, and the rows of the extra modules follow; when not
    asked for, or with no extra module, the respective part is empty. *)
Theorem list_available_tools_rows (official : bool) (extra : option (list string))
    (rows : list (string * string)) :
  list_available_tools R official extra = Ok rows ->
  exists official_rows extra_rows,
    rows = official_rows ++ extra_rows
    /\ (if official
        then map fst official_rows ≡ₚ elements (list_tools R)
             /\ StronglySorted String.le (map fst official_rows)
             /\ NoDup (map fst official_rows)
             /\ Forall (fun row => row.2 = "[green]Official[/green]") official_rows
        else official_rows = [])
    /\ match extra with
       | Some paths =>
           exists groups,
             extra_rows = concat groups
             /\ Forall2 (fun path group =>
                           exists names2tools,
                             extract_all_tools R path = Ok names2tools
                             /\ map fst group ≡ₚ elements (dom names2tools)
                             /\ StronglySorted String.le (map fst group)
                             /\ Forall (fun row => row.2 = path) group)
                  paths groups
       | None => extra_rows = []
       end.
Proof.
  unfold list_available_tools.
  destruct (match extra with Some _ => _ | None => _ end) as [groups|] eqn:Hextra;
    [|discriminate].
  cbn [bind]. intros [= <-].
  eexists. exists (concat groups). split; [reflexivity|]. split.
  - destruct official; [|reflexivity].
    rewrite map_map. cbn [fst]. rewrite map_id.
    destruct (sorted_spec (elements (list_tools R))) as [Hperm Hsorted].
    split; [exact Hperm|]. split; [exact Hsorted|]. split.
    + rewrite Hperm. apply NoDup_elements.
    + apply Forall_forall. intros row Hrow.
      apply list_elem_of_fmap in Hrow as (name & -> & _). reflexivity.
  - destruct extra as [paths|].
    + exists groups. split; [reflexivity|].
      apply mapM_Ok in Hextra. eapply Forall2_impl; [exact Hextra|].
      intros path group Hgroup. unfold extra_rows in Hgroup.
      destruct (extract_all_tools R path) as [m|]; [|discriminate].
      cbn [bind] in Hgroup. injection Hgroup as <-.
      exists m. split; [reflexivity|].
      rewrite map_map. cbn [fst]. rewrite map_id.
      destruct (sorted_spec (elements (dom m))) as [Hperm Hsorted].
      split; [exact Hperm|]. split; [exact Hsorted|].
      apply Forall_forall. intros row Hrow.
      apply list_elem_of_fmap in Hrow as (name & -> & _). reflexivity.
    + now injection Hextra as <-.
Qed.

End CommandProperties.

(** ** The OCR tool *)

Lemma foldl_min_spec (x : Z) (rest : list Z) :
  foldl Z.min x rest ∈ x :: rest
  /\ Forall (fun y => foldl Z.min x rest <= y) (x :: rest).
Proof.
  revert x. induction rest as [|y rest IH]; intros x; cbn [foldl].
  - split; [apply list_elem_of_here | repeat constructor; lia].
  - destruct (IH (Z.min x y)) as [Hin Hle].
    apply Forall_cons in Hle as [Hhead Hrest]. split.
    + apply elem_of_cons in Hin as [Heq | Hin].
      * rewrite Heq. destruct (Z.min_spec x y) as [[_ ->] | [_ ->]].
        -- apply list_elem_of_here.
        -- apply list_elem_of_further, list_elem_of_here.
      * now do 2 apply list_elem_of_further.
    + repeat constructor; [lia | lia | exact Hrest].
Qed.

Lemma foldl_max_spec (x : Z) (rest : list Z) :
  foldl Z.max x rest ∈ x :: rest
  /\ Forall (fun y => y <= foldl Z.max x rest) (x :: rest).
Proof.
  revert x. induction rest as [|y rest IH]; intros x; cbn [foldl].
  - split; [apply list_elem_of_here | repeat constructor; lia].
  - destruct (IH (Z.max x y)) as [Hin Hle].
    apply Forall_cons in Hle as [Hhead Hrest]. split.
    + apply elem_of_cons in Hin as [Heq | Hin].
      * rewrite Heq. destruct (Z.max_spec x y) as [[_ ->] | [_ ->]].
        -- apply list_elem_of_further, list_elem_of_here.
        -- apply list_elem_of_here.
      * now do 2 apply list_elem_of_further.
    + repeat constructor; [lia | lia | exact Hrest].
Qed.

Lemma min_Ok (xs : list Z) (m : Z) :
  OCR.min xs = Ok m -> m ∈ xs /\ Forall (fun y => m <= y) xs.
Proof.
  destruct xs as [|x rest]; [discriminate|]. intros [= <-]. apply foldl_min_spec.
Qed.

Lemma max_Ok (xs : list Z) (m : Z) :
  OCR.max xs = Ok m -> m ∈ xs /\ Forall (fun y => y <= m) xs.
Proof.
  destruct xs as [|x rest]; [discriminate|]. intros [= <-]. apply foldl_max_spec.
Qed.

(** The coordinates a comprehension of [extract_bbox] collects. *)
Lemma coordinates_Ok (k : nat) (char_boxes : list (list OCR.coordinate)) (zs : list Z) :
  mapM (fun box => bind (OCR.getitem box k) (fun x => Ok (OCR.int x))) char_boxes = Ok zs ->
  length zs = length char_boxes
  /\ (forall box, box ∈ char_boxes ->
        exists x, box !! k = Some x /\ OCR.int x ∈ zs)
  /\ (forall z, z ∈ zs ->
        exists box x, box ∈ char_boxes /\ box !! k = Some x /\ OCR.int x = z).
Proof.
  intros H%mapM_Ok. split; [symmetry; apply (Forall2_length _ _ _ H)|].
  assert (Hstep : forall box z,
            bind (OCR.getitem box k) (fun x => Ok (OCR.int x)) = Ok z ->
            exists x, box !! k = Some x /\ OCR.int x = z).
  { intros box z. unfold OCR.getitem.
    destruct (box !! k) as [x|]; [|discriminate]. cbn. intros [= <-]. eauto. }
  split.
  - intros box [i Hi]%list_elem_of_lookup.
    destruct (Forall2_lookup_l _ _ _ _ _ H Hi) as (z & Hz & Hbox).
    apply Hstep in Hbox as (x & Hx & <-). exists x. split; [exact Hx|].
    apply list_elem_of_lookup. eauto.
  - intros z [i Hi]%list_elem_of_lookup.
    destruct (Forall2_lookup_r _ _ _ _ _ H Hi) as (box & Hb & Hbox).
    apply Hstep in Hbox as (x & Hx & Heq). exists box, x.
    split; [apply list_elem_of_lookup; eauto | now split].
Qed.

(** X14. The box [extract_bbox] returns is the tight bounding box of the
    truncated points: every character box has its first two coordinates
    inside it, each of its four sides passes through one of them, and it
    exists only for a list of boxes that is not empty. *)
Theorem extract_bbox_bounds (char_boxes : list (list OCR.coordinate)) (x1 y1 x2 y2 : Z) :
  OCR.extract_bbox char_boxes = Ok (x1, y1, x2, y2) ->
  char_boxes <> []
  /\ x1 <= x2 /\ y1 <= y2
  /\ (forall box, box ∈ char_boxes ->
        exists x y,
          box !! 0%nat = Some x /\ box !! 1%nat = Some y
          /\ x1 <= OCR.int x <= x2 /\ y1 <= OCR.int y <= y2)
  /\ (exists box x, box ∈ char_boxes /\ box !! 0%nat = Some x /\ OCR.int x = x1)
  /\ (exists box y, box ∈ char_boxes /\ box !! 1%nat = Some y /\ OCR.int y = y1)
  /\ (exists box x, box ∈ char_boxes /\ box !! 0%nat = Some x /\ OCR.int x = x2)
  /\ (exists box y, box ∈ char_boxes /\ box !! 1%nat = Some y /\ OCR.int y = y2).
Proof.
  unfold OCR.extract_bbox.
  destruct (mapM (fun box => bind (OCR.getitem box 0) _) char_boxes)
    as [xs|] eqn:Hxs; [|discriminate]. cbn [bind].
  destruct (mapM (fun box => bind (OCR.getitem box 1) _) char_boxes)
    as [ys|] eqn:Hys; [|discriminate]. cbn [bind].
  destruct (OCR.min xs) as [mx|] eqn:Hmx; [|discriminate]. cbn [bind].
  destruct (OCR.min ys) as [my|] eqn:Hmy; [|discriminate]. cbn [bind].
  destruct (OCR.max xs) as [Mx|] eqn:HMx; [|discriminate]. cbn [bind].
  destruct (OCR.max ys) as [My|] eqn:HMy; [|discriminate]. cbn [bind].
  intros [= <- <- <- <-].
  apply coordinates_Ok in Hxs as (Hlx & Hx_in & Hx_from).
  apply coordinates_Ok in Hys as (Hly & Hy_in & Hy_from).
  apply min_Ok in Hmx as [Hmx_in Hmx_le]. apply min_Ok in Hmy as [Hmy_in Hmy_le].
  apply max_Ok in HMx as [HMx_in HMx_le]. apply max_Ok in HMy as [HMy_in HMy_le].
  rewrite Forall_forall in Hmx_le, Hmy_le, HMx_le, HMy_le.
  split.
  { intros ->. cbn in Hlx. destruct xs; [|discriminate].
    now apply not_elem_of_nil in Hmx_in. }
  split; [apply HMx_le, Hmx_in|]. split; [apply HMy_le, Hmy_in|].
  split.
  { intros box Hbox.
    destruct (Hx_in box Hbox) as (x & Hx & Hxz).
    destruct (Hy_in box Hbox) as (y & Hy & Hyz).
    exists x, y. repeat split; auto. }
  repeat split; auto.
Qed.


Section OCRProperties.
Context {ImageIO AudioIO : Type}.
Local Abbreviation pyval := (pyval ImageIO AudioIO).

(** X15. The text [apply] returns has one part for each result of the reader,
    in the order of the results, joined by newlines: the bounding box of
    the result's character boxes between parentheses, then the recognized
    text.  No result gives the empty text. *)
Theorem apply_text
    (readtext : ImageIO -> gmap string pyval -> result (list OCR.ocr_result))
    (self : OCR.OCR ImageIO AudioIO) (image : ImageIO) (text : string) :
  OCR.apply readtext self image = Ok text ->
  exists ocr_results outs,
    readtext image (OCR.read_args self) = Ok ocr_results
    /\ text = OCR.join OCR.newline outs
    /\ length outs = length ocr_results
    /\ (ocr_results = [] -> text = EmptyString)
    /\ forall i r,
         ocr_results !! i = Some r ->
         exists x1 y1 x2 y2,
           OCR.extract_bbox (OCR.char_boxes r) = Ok (x1, y1, x2, y2)
           /\ outs !! i
              = Some ("(" +:+ pretty x1 +:+ ", " +:+ pretty y1 +:+ ", " +:+ pretty x2
                      +:+ ", " +:+ pretty y2 +:+ ") " +:+ OCR.pred r).
Proof.
  unfold OCR.apply.
  destruct (readtext image (OCR.read_args self)) as [ocr_results|]; [|discriminate].
  cbn [bind].
  destruct (OCR.outputs ocr_results) as [outs|] eqn:Houts; [|discriminate].
  cbn [bind]. intros [= <-]. exists ocr_results, outs.
  apply mapM_Ok in Houts.
  split; [reflexivity|]. split; [reflexivity|].
  split; [symmetry; apply (Forall2_length _ _ _ Houts)|].
  split.
  { intros ->. apply Forall2_nil_inv_l in Houts. now subst. }
  intros i r Hr.
  destruct (Forall2_lookup_l _ _ _ _ _ Houts Hr) as (line & Hline & Hfmt).
  destruct (OCR.extract_bbox (OCR.char_boxes r)) as [[[[x1 y1] x2] y2]|]; [|discriminate].
  cbn in Hfmt. injection Hfmt as <-.
  now exists x1, y1, x2, y2.
Qed.


(** X17. The constructor never overrides a reading argument of the caller, and
    it always defines [decoder] and [paragraph]: the caller's values when
    given, [beamsearch] and [True] otherwise.  The languages are always a
    list, of the one language when a string was given. *)
Theorem init_read_args (lang0 : OCR.lang_arg) (device0 : pyval)
    (read_args0 : gmap string pyval) :
  (forall key value,
      read_args0 !! key = Some value ->
      OCR.read_args (OCR.init lang0 device0 read_args0) !! key = Some value)
  /\ OCR.read_args (OCR.init lang0 device0 read_args0) !! "decoder"
     = Some (default (VStr "beamsearch") (read_args0 !! "decoder"))
  /\ OCR.read_args (OCR.init lang0 device0 read_args0) !! "paragraph"
     = Some (default (VBool true) (read_args0 !! "paragraph"))
  /\ (forall key,
        key <> "decoder" -> key <> "paragraph" ->
        OCR.read_args (OCR.init lang0 device0 read_args0) !! key = read_args0 !! key)
  /\ OCR.lang (OCR.init lang0 device0 read_args0)
     = match lang0 with
       | OCR.LangStr l => [l]
       | OCR.LangSeq ls => ls
       end.
Proof.
  assert (Hset : forall (d : gmap string pyval) k v key,
            OCR.setdefault d k v !! key
            = if decide (k = key) then Some (default v (d !! k)) else d !! key).
  { intros d k v key. unfold OCR.setdefault.
    destruct (d !! k) as [w|] eqn:Hk; cbn; case_decide; subst.
    - exact Hk.
    - reflexivity.
    - apply lookup_insert_eq.
    - now apply lookup_insert_ne. }
  cbn [OCR.init OCR.read_args OCR.lang].
  split; [|split; [|split; [|split]]].
  - intros key value Hkey. rewrite !Hset.
    repeat case_decide; subst; rewrite ?Hset; repeat case_decide;
      try congruence; rewrite ?Hkey; reflexivity.
  - rewrite !Hset. repeat case_decide; congruence.
  - rewrite !Hset. repeat case_decide; try congruence.
  - intros key Hd Hp. rewrite !Hset. repeat case_decide; congruence.
  - reflexivity.
Qed.

End OCRProperties.

(** ** The further properties on the concrete environment *)

Example start_paths :
  (fun served => match served with Ok routes => Some (map path routes) | Raise _ => None end)
    (start Demo.libs DemoMore.tools [] ["OCR"; "SpeechToText"; "OCR"] "cpu" true None)
  = Some ["/Text_OCR"; "/Speech_To_Text"; "/Text_OCR"].
Proof. vm_compute. reflexivity. Qed.

Example listing :
  list_available_tools DemoMore.tools true (Some ["my_tools.py"])
  = Ok [("Calculator", "[green]Official[/green]"); ("OCR", "[green]Official[/green]");
        ("SpeechToText", "[green]Official[/green]");
        ("Draw", "my_tools.py"); ("TopK", "my_tools.py")].
Proof. vm_compute. reflexivity. Qed.

Example ocr_text :
  OCR.apply DemoMore.readtext (OCR.init (OCR.LangStr "en") (VBool true) ∅)
    (list_byte_of_string "PNG")
  = Ok ("(10, 20, 52, 31) EXIT" +:+ OCR.newline +:+ "(0, 0, 8, 8) hi").
Proof. vm_compute. reflexivity. Qed.

Lemma decode_inputs_only_declared_witness :
  exists p data,
    p ∈ t_inputs Demo.top_k /\ p_name p = "query"
    /\ ({[ "query" := VStr "cats"; "k" := VNone; "debug" := VBool true ]}
        : gmap string (pyval Demo.Image Demo.Audio)) !! "query" = Some data
    /\ data <> VNone.
Proof.
  apply (decode_inputs_only_declared Demo.libs Demo.top_k _ {[ "query" := VStr "cats" ]}).
  - vm_compute. reflexivity.
  - exists (VStr "cats"). vm_compute. reflexivity.
Defined.

Lemma decode_inputs_reads_declared_witness :
  call Demo.libs Demo.top_k {[ "query" := VStr "cats"; "k" := VInt 3 ]}
  = call Demo.libs Demo.top_k
      {[ "query" := VStr "cats"; "k" := VInt 3; "debug" := VBool true ]}.
Proof.
  apply (decode_inputs_reads_declared Demo.libs Demo.top_k).
  intros p Hp. cbn in Hp.
  apply elem_of_cons in Hp as [-> | Hp]; [vm_compute; reflexivity|].
  apply elem_of_cons in Hp as [-> | Hp]; [vm_compute; reflexivity|].
  now apply elem_of_nil in Hp.
Defined.


Lemma decode_inputs_binds_witness :
  exists filename file image,
    (VUploadFile (Some "scan.png") (list_byte_of_string "PNG")
     : pyval Demo.Image Demo.Audio) = VUploadFile filename file
    /\ Image_open Demo.libs file = Ok image
    /\ ({[ "image" := VImage (list_byte_of_string "PNG") ]}
        : gmap string (pyval Demo.Image Demo.Audio)) !! "image" = Some (VImage image).
Proof.
  apply (decode_inputs_binds Demo.libs Demo.text_ocr
           {[ "image" := VUploadFile (Some "scan.png") (list_byte_of_string "PNG") ]}
           {[ "image" := VImage (list_byte_of_string "PNG") ]}
           [] [] (Demo.spec "image" T_ImageIO)
           (VUploadFile (Some "scan.png") (list_byte_of_string "PNG"))).
  - reflexivity.
  - intros q Hq. now apply elem_of_nil in Hq.
  - vm_compute. reflexivity.
  - discriminate.
  - vm_compute. reflexivity.
Defined.


Lemma plain_outputs_pass_through_witness :
  call Demo.libs (Demo.two_outputs (VTuple [VStr "a cat"; VInt 7])) ∅
  = Ok (VTuple [VStr "a cat"; VInt 7]).
Proof.
  apply (plain_outputs_pass_through Demo.libs
           (Demo.two_outputs (VTuple [VStr "a cat"; VInt 7])) ∅ ∅
           (VTuple [VStr "a cat"; VInt 7])).
  - intros p Hp. cbn in Hp.
    apply elem_of_cons in Hp as [-> | Hp]; [split; discriminate|].
    apply elem_of_cons in Hp as [-> | Hp]; [split; discriminate|].
    now apply elem_of_nil in Hp.
  - reflexivity.
  - reflexivity.
Defined.


Lemma call_status_always_400_witness :
  exists e0,
    raised_in Demo.libs DemoMore.not_found ∅ e0
    /\ isinstance_Exception e0 = true
    /\ HTTPException 400 "HTTPException(no such image)" = HTTPException 400 (repr Demo.libs e0).
Proof.
  apply (call_status_always_400 Demo.libs DemoMore.not_found ∅).
  - vm_compute. reflexivity.
  - reflexivity.
Defined.



Lemma list_available_tools_rows_witness :
  exists official_rows extra_rows,
    [("Calculator", "[green]Official[/green]"); ("OCR", "[green]Official[/green]");
     ("SpeechToText", "[green]Official[/green]")]
    = official_rows ++ extra_rows
    /\ (map fst official_rows ≡ₚ elements (list_tools DemoMore.tools)
        /\ StronglySorted String.le (map fst official_rows)
        /\ NoDup (map fst official_rows)
        /\ Forall (fun row => row.2 = "[green]Official[/green]") official_rows)
    /\ extra_rows = [].
Proof.
  apply (list_available_tools_rows DemoMore.tools true None).
  vm_compute. reflexivity.
Defined.

Lemma extract_bbox_bounds_witness :
  DemoMore.corners (DemoMore.half 21) (DemoMore.whole 20)
    (DemoMore.whole 52) (DemoMore.half 63) <> []
  /\ 10 <= 52 /\ 20 <= 31.
Proof.
  destruct (extract_bbox_bounds
              (DemoMore.corners (DemoMore.half 21) (DemoMore.whole 20)
                 (DemoMore.whole 52) (DemoMore.half 63))
              10 20 52 31 eq_refl) as (Hne & Hx & Hy & _).
  exact (conj Hne (conj Hx Hy)).
Defined.

Lemma apply_text_witness :
  exists ocr_results outs,
    DemoMore.readtext (list_byte_of_string "PNG")
      (OCR.read_args (OCR.init (OCR.LangStr "en") (VBool true) ∅)) = Ok ocr_results
    /\ "(10, 20, 52, 31) EXIT" +:+ OCR.newline +:+ "(0, 0, 8, 8) hi"
       = OCR.join OCR.newline outs
    /\ length outs = length ocr_results.
Proof.
  destruct (apply_text DemoMore.readtext (OCR.init (OCR.LangStr "en") (VBool true) ∅)
              (list_byte_of_string "PNG")
              ("(10, 20, 52, 31) EXIT" +:+ OCR.newline +:+ "(0, 0, 8, 8) hi"))
    as (rs & outs & Hread & Htext & Hlen & _).
  - vm_compute. reflexivity.
  - exists rs, outs. auto.
Defined.

(** ** The response against the synthesized response type *)

Section ModelProperties.
Context {ImageIO AudioIO : Type}.
Context (L : Libs ImageIO AudioIO).
Local Abbreviation pyval := (pyval ImageIO AudioIO).
Local Abbreviation ParameterSpec := (ParameterSpec ImageIO AudioIO).
Local Abbreviation BaseTool := (BaseTool ImageIO AudioIO).




End ModelProperties.

